(** * The MuNG class ontology of [src/mung/ontology/mungClasses.ts]

    The module holds one table, [DEFINITIONS], one function,
    [parseMungClassDefinition], and three exported constants computed from
    them when the module is loaded: [MUNG_CLASSES], [MUNG_CLASS_NAMES] and
    [MUNG_CLASSES_BY_NAME].  This file embeds them and proves the properties
    that the specification states about them.

    Strings are Rocq strings, i.e. byte sequences.  Class names are ASCII
    (lemma [DEFINITIONS_keys_ascii]), so the byte order used here is the
    UTF-16 code unit order that JavaScript compares strings with.  Glyphs
    outside ASCII are written with [u], which mirrors the escape [\u{...}]
    of the source and yields the UTF-8 encoding of the code point. *)

From Stdlib Require Import NArith.
From stdpp Require Import base option list strings sorting.

(** ** The fragment of JavaScript the module relies on *)

Module JS.

(** A value of the union type [boolean | string]. *)
Inductive bool_or_string : Type :=
  | JSBool (b : bool)
  | JSString (s : string).

Global Instance bool_or_string_eq_dec : EqDecision bool_or_string.
Proof. solve_decision. Defined.

(** The abstract operation [ToBoolean], on the types the module applies
    it to: [undefined], [false] and the empty string are falsy, every
    other boolean or string is truthy. *)
Class ToBoolean (A : Type) : Type := to_boolean : A → bool.
Global Instance bool_ToBoolean : ToBoolean bool := λ b, b.
Global Instance string_ToBoolean : ToBoolean string :=
  λ s, negb (String.eqb s "").
Global Instance bool_or_string_ToBoolean : ToBoolean bool_or_string :=
  λ v, match v with
       | JSBool b => to_boolean b
       | JSString s => to_boolean s
       end.
Global Instance option_ToBoolean {A} `{ToBoolean A} : ToBoolean (option A) :=
  λ v, match v with
       | Some a => to_boolean a
       | None => false
       end.

(** [!v]. *)
Definition logical_not {A} `{ToBoolean A} (v : A) : bool := negb (to_boolean v).

(** [v === true] on an optional boolean. *)
Definition is_true (v : option bool) : bool :=
  match v with
  | Some true => true
  | _ => false
  end.

(** [v !== undefined]. *)
Definition is_defined {A} (v : option A) : bool :=
  match v with
  | Some _ => true
  | None => false
  end.

(** The string made of the single code point [cp], as [\u{cp}]. *)
Definition u (cp : N) : string :=
  let byte n := Ascii.ascii_of_N n in
  if (cp <? 0x80)%N then String (byte cp) ""
  else if (cp <? 0x800)%N then
    String (byte (0xC0 + cp / 0x40)%N)
      (String (byte (0x80 + cp mod 0x40)%N) "")
  else if (cp <? 0x10000)%N then
    String (byte (0xE0 + cp / 0x1000)%N)
      (String (byte (0x80 + (cp / 0x40) mod 0x40)%N)
         (String (byte (0x80 + cp mod 0x40)%N) ""))
  else
    String (byte (0xF0 + cp / 0x40000)%N)
      (String (byte (0x80 + (cp / 0x1000) mod 0x40)%N)
         (String (byte (0x80 + (cp / 0x40) mod 0x40)%N)
            (String (byte (0x80 + cp mod 0x40)%N) ""))).
Global Arguments u cp%_N.

(** *** Ordinary objects

    The own properties of an object, in the order of their creation.
    Every object of the module is created by an object literal, so its
    prototype is [Object.prototype]. *)
Definition object (V : Type) : Type := list (string * V).

(** The own property [k] of [o], if there is one. *)
Fixpoint own {V : Type} (o : object V) (k : string) : option V :=
  match o with
  | [] => None
  | (k', v) :: o' => if decide (k = k') then Some v else own o' k
  end.

(** [o[k] = v], also the definition of property [k] by an object
    literal: an existing own property keeps its place and takes the new
    value, a new one is added after the others.  (The name [__proto__]
    would set the prototype instead; no class has it, see
    [DEFINITIONS_no_proto].) *)
Fixpoint put {V : Type} (k : string) (v : V) (o : object V) : object V :=
  match o with
  | [] => [(k, v)]
  | (k', v') :: o' =>
      if decide (k = k') then (k, v) :: o' else (k', v') :: put k v o'
  end.

(** The object literal [{ k1: v1, ..., kn: vn }]. *)
Definition object_literal {V : Type} (l : list (string * V)) : object V :=
  foldl (λ o kv, put kv.1 kv.2 o) [] l.

(** The names of the properties of [Object.prototype], which every
    object created by a literal inherits (ECMA-262, 20.1.3 and B.2.2). *)
Definition Object_prototype : list string :=
  [ "constructor"; "hasOwnProperty"; "isPrototypeOf";
    "propertyIsEnumerable"; "toLocaleString"; "toString"; "valueOf";
    "__proto__"; "__defineGetter__"; "__defineSetter__";
    "__lookupGetter__"; "__lookupSetter__" ].

(** What the expression [o[k]] evaluates to.  It never throws. *)
Inductive property (V : Type) : Type :=
  | Undefined
  | Value (v : V)
  | Builtin (name : string).
Global Arguments Undefined {V}.
Global Arguments Value {V} v.
Global Arguments Builtin {V} name.

Global Instance property_eq_dec {V} `{EqDecision V} :
  EqDecision (property V).
Proof. solve_decision. Defined.

(** [o[k]]: the own property, else the one inherited from
    [Object.prototype], else [undefined]. *)
Definition Get {V : Type} (o : object V) (k : string) : property V :=
  match own o k with
  | Some v => Value v
  | None => if decide (k ∈ Object_prototype) then Builtin k else Undefined
  end.

(** *** [Object.keys] *)

Definition digit (a : Ascii.ascii) : option N :=
  let n := Ascii.N_of_ascii a in
  if ((48 <=? n) && (n <=? 57))%N then Some (n - 48)%N else None.

Fixpoint decimal (acc : N) (s : string) : option N :=
  match s with
  | EmptyString => Some acc
  | String a s' => d ← digit a; decimal (10 * acc + d)%N s'
  end.

(** An array index is the canonical decimal numeral of an integer below
    [2^32 - 1]. *)
Definition array_index (s : string) : option N :=
  match s with
  | EmptyString => None
  | String a s' =>
      n ← decimal 0 s;
      if (String.eqb s' "" || negb (Ascii.N_of_ascii a =? 48)%N)
           && (n <? 4294967295)%N
      then Some n else None
  end.

Definition is_array_index (s : string) : Prop := is_Some (array_index s).

Definition index_le (s1 s2 : string) : Prop :=
  (default 0 (array_index s1) ≤ default 0 (array_index s2))%N.

Global Instance index_le_dec : RelDecision index_le.
Proof. intros s1 s2. unfold index_le. apply _. Defined.

(** [Object.keys(o)]: the array indices in ascending numeric order, then
    the other keys in the order of their creation. *)
Definition Object_keys {V : Type} (o : object V) : list string :=
  merge_sort index_le (filter is_array_index o.*1)
    ++ filter (λ k, ¬ is_array_index k) o.*1.

(** *** [Array.prototype.sort] without a comparator

    The elements are compared as strings, code unit by code unit.  The
    standard fixes the result, not the algorithm: [sorted_array l l']
    holds of every [l'] that an implementation may return for [l], and
    [Array_sort] is one implementation. *)
Definition sorted_array (l l' : list string) : Prop :=
  l' ≡ₚ l ∧ Sorted String.le l'.

Definition Array_sort (l : list string) : list string :=
  merge_sort String.le l.

End JS.

Export JS.

(** ** The data model *)

(** The interface [MungClassDefinition]: an optional property that a
    definition leaves out is [None]. *)
Module MungClassDefinition.

Record t : Type := {
  uc : string;
  mpp : option bool;
  notSmufl : option bool_or_string;
  smuflEquivalents : option (list string);
  container : option bool;
  otherSmuflDivergenceJustification : option string;
  transcribable : option bool
}.

Global Instance eq_dec : EqDecision t.
Proof. solve_decision. Defined.

(** One optional property of a definition, as written in the table. *)
Inductive optional : Type :=
  | Mpp (b : bool)
  | NotSmufl (v : bool_or_string)
  | SmuflEquivalents (l : list string)
  | Container (b : bool)
  | OtherSmuflDivergenceJustification (s : string)
  | Transcribable (b : bool).

Definition define (d : t) (p : optional) : t :=
  match p with
  | Mpp b =>
      {| uc := uc d; mpp := Some b; notSmufl := notSmufl d;
         smuflEquivalents := smuflEquivalents d; container := container d;
         otherSmuflDivergenceJustification :=
           otherSmuflDivergenceJustification d;
         transcribable := transcribable d |}
  | NotSmufl v =>
      {| uc := uc d; mpp := mpp d; notSmufl := Some v;
         smuflEquivalents := smuflEquivalents d; container := container d;
         otherSmuflDivergenceJustification :=
           otherSmuflDivergenceJustification d;
         transcribable := transcribable d |}
  | SmuflEquivalents l =>
      {| uc := uc d; mpp := mpp d; notSmufl := notSmufl d;
         smuflEquivalents := Some l; container := container d;
         otherSmuflDivergenceJustification :=
           otherSmuflDivergenceJustification d;
         transcribable := transcribable d |}
  | Container b =>
      {| uc := uc d; mpp := mpp d; notSmufl := notSmufl d;
         smuflEquivalents := smuflEquivalents d; container := Some b;
         otherSmuflDivergenceJustification :=
           otherSmuflDivergenceJustification d;
         transcribable := transcribable d |}
  | OtherSmuflDivergenceJustification s =>
      {| uc := uc d; mpp := mpp d; notSmufl := notSmufl d;
         smuflEquivalents := smuflEquivalents d; container := container d;
         otherSmuflDivergenceJustification := Some s;
         transcribable := transcribable d |}
  | Transcribable b =>
      {| uc := uc d; mpp := mpp d; notSmufl := notSmufl d;
         smuflEquivalents := smuflEquivalents d; container := container d;
         otherSmuflDivergenceJustification :=
           otherSmuflDivergenceJustification d;
         transcribable := Some b |}
  end.

(** The literal [{ uc: glyph, p1, ..., pn }]. *)
Definition def (glyph : string) (ps : list optional) : t :=
  foldl define
    {| uc := glyph; mpp := None; notSmufl := None;
       smuflEquivalents := None; container := None;
       otherSmuflDivergenceJustification := None;
       transcribable := None |}
    ps.

End MungClassDefinition.

Abbreviation MungClassDefinition := MungClassDefinition.t.

(** Modelled from the spec: the interface [MungClass] is declared in
    [./MungClass], which is not among the sources.  Its fields are those of
    the object that [parseMungClassDefinition] returns, with the types of
    the spec's ClassDescriptor; [None] is [undefined]. *)
Module MungClass.

Record t : Type := {
  className : string;
  unicode : string;
  isSmufl : bool;
  smuflEquivalents : option (list string);
  isMuscimaPP20 : bool;
  isContainer : bool;
  otherSmuflDivergenceJustification : option string;
  justifiedSmuflDivergence : option bool;
  isTranscribable : bool
}.

Global Instance eq_dec : EqDecision t.
Proof. solve_decision. Defined.

End MungClass.

Abbreviation MungClass := MungClass.t.

Import MungClass.

(** ** The derivation *)

Definition parseMungClassDefinition
    (className : string) (def : MungClassDefinition) : MungClass :=
  let isSmufl := logical_not (MungClassDefinition.notSmufl def) in
  let isContainer := logical_not (logical_not (MungClassDefinition.container def)) in
  let justifiedSmuflDivergence :=
    if isSmufl then None
    else Some (isContainer
               || is_true (MungClassDefinition.transcribable def)
               || is_defined
                    (MungClassDefinition.otherSmuflDivergenceJustification
                       def)) in
  {| className := className;
     unicode := MungClassDefinition.uc def;
     isSmufl := isSmufl;
     smuflEquivalents := MungClassDefinition.smuflEquivalents def;
     isMuscimaPP20 := logical_not (logical_not (MungClassDefinition.mpp def));
     isContainer := isContainer;
     otherSmuflDivergenceJustification :=
       MungClassDefinition.otherSmuflDivergenceJustification def;
     justifiedSmuflDivergence := justifiedSmuflDivergence;
     isTranscribable :=
       logical_not (logical_not (MungClassDefinition.transcribable def)) |}.

(** ** The table *)

Section Table.
Import MungClassDefinition.

(** The central definition place for mung classes, in the order of the
    source; the entries that the source comments out are left out. *)
Definition DEFINITIONS : object MungClassDefinition :=
  object_literal [
    ("unclassified", def "?" [Mpp true; NotSmufl (JSBool true)]);
    ("otherNumericSign", def "?" [Mpp true; NotSmufl (JSBool true)]);
    ("ossia", def "?" [Mpp true; NotSmufl (JSBool true)]);
    ("rehearsalMark", def "?" [Mpp true; NotSmufl (JSBool true)]);
    ("instrumentName", def "Pno" [Mpp true; NotSmufl (JSBool true)]);
    ("instrumentSpecific", def "?" [Mpp true; NotSmufl (JSBool true)]);
    ("staffGrouping", def (u 0xE000)
       [Mpp true; NotSmufl (JSBool true); SmuflEquivalents ["brace"; "bracket"]]);
    ("brace", def (u 0xE000) [Mpp true]);
    ("bracket", def (u 0xE002) [Mpp true]);
    ("systemSeparator", def (u 0xE007)
       [Mpp true; NotSmufl (JSBool true); SmuflEquivalents ["systemDivider"]]);
    ("systemDivider", def (u 0xE007) []);
    ("splitBarDivider", def (u 0xE00A) []);
    ("custos", def (u 0xE56C) []);
    ("staffLine", def (u 0xE016 +:+ u 0x2800)
       [Mpp true; NotSmufl (JSBool true); OtherSmuflDivergenceJustification ("Cannot be rendered using a font. " +:+ "The staff1Line class is a different thing semantically.")]);
    ("staffSpace", def (u 0xE011) [Mpp true; NotSmufl (JSBool true)]);
    ("staff", def (u 0xE01A +:+ u 0x2800) [Mpp true; SmuflEquivalents ["staff5Lines"]]);
    ("legerLine", def (u 0xE022) [Mpp true]);
    ("barNumber", def "42" [Mpp true; NotSmufl (JSBool true)]);
    ("measureSeparator", def (u 0xE030) [Mpp true; NotSmufl (JSBool true); Container true]);
    ("barline", def (u 0xE030)
       [Mpp true; NotSmufl (JSBool true); SmuflEquivalents ["barlineSingle"]]);
    ("barlineSingle", def (u 0xE030) []);
    ("barlineFinal", def (u 0xE032) []);
    ("barlineHeavy", def (u 0xE034) [Mpp true]);
    ("barlineWing", def (u 0xE002 +:+ u 0xE043) [NotSmufl (JSBool true)]);
    ("repeat", def (u 0xE042) [Mpp true; SmuflEquivalents ["repeatLeft"; "repeatRight"]]);
    ("repeatText", def "D.C." [NotSmufl (JSBool true); Transcribable true]);
    ("volta", def "1." [Mpp true; Container true]);
    ("voltaText", def "1." [NotSmufl (JSBool true); Transcribable true]);
    ("repeatLeft", def (u 0xE040) []);
    ("repeatRight", def (u 0xE041) []);
    ("repeatDot", def (u 0xE043) [Mpp true]);
    ("segno", def (u 0xE047) [Mpp true]);
    ("coda", def (u 0xE048) [Mpp true]);
    ("segnoSerpent", def (u 0xE04A) [NotSmufl (JSBool true)]);
    ("gClef", def (u 0xE050) [Mpp true]);
    ("cClef", def (u 0xE05C) [Mpp true]);
    ("cClefSquare", def (u 0xE060) []);
    ("fClef", def (u 0xE062) [Mpp true]);
    ("unpitchedPercussionClef1", def (u 0xE069) []);
    ("unpitchedPercussionClef2", def (u 0xE06A) []);
    ("semipitchedPercussionClef1", def (u 0xE06B) []);
    ("semipitchedPercussionClef2", def (u 0xE06C) []);
    ("6stringTabClef", def (u 0xE06D) []);
    ("4stringTabClef", def (u 0xE06E) []);
    ("gClefChange", def (u 0xE07A) []);
    ("cClefChange", def (u 0xE07B) []);
    ("fClefChange", def (u 0xE07C) []);
    ("clef8", def (u 0xE07D) []);
    ("clef15", def (u 0xE07E) []);
    ("timeSignature", def (u 0xF5FC) [Mpp true; NotSmufl (JSBool true); Container true]);
    ("timeSig0", def (u 0xE080) []);
    ("timeSig1", def (u 0xE081) []);
    ("timeSig2", def (u 0xE082) []);
    ("timeSig3", def (u 0xE083) []);
    ("timeSig4", def (u 0xE084) []);
    ("timeSig5", def (u 0xE085) []);
    ("timeSig6", def (u 0xE086) []);
    ("timeSig7", def (u 0xE087) []);
    ("timeSig8", def (u 0xE088) []);
    ("timeSig9", def (u 0xE089) []);
    ("timeSigCommon", def (u 0xE08A) [Mpp true]);
    ("mensuralProlationCombiningDot", def (u 0xE914) [Mpp true]);
    ("timeSigCutCommon", def (u 0xE08B) [Mpp true]);
    ("timeSigSlash", def (u 0xEC84) []);
    ("timeSigFractionalSlash", def (u 0xE08E) []);
    ("timeSigPlus", def (u 0xE08C) []);
    ("timeSigEquals", def (u 0xE08F) []);
    ("timeSigMinus", def (u 0xE090) []);
    ("timeSigMultiply", def (u 0xE091) []);
    ("timeSigX", def (u 0xE09C) []);
    ("noteheadDoubleWhole", def (u 0xE0A0) []);
    ("noteheadDoubleWholeSquare", def (u 0xE0A1) []);
    ("noteheadWhole", def (u 0xE0A2) [Mpp true]);
    ("noteheadHalf", def (u 0xE0A3) [Mpp true]);
    ("noteheadBlack", def (u 0xE0A4) []);
    ("noteheadFull", def (u 0xE0A4)
       [Mpp true; NotSmufl (JSBool true); SmuflEquivalents ["noteheadBlack"]]);
    ("noteheadXBlack", def (u 0xE0A9) []);
    ("noteheadXOrnate", def (u 0xE0AA) []);
    ("noteheadWholeSmall", def (u 0xE0A2) []);
    ("noteheadHalfSmall", def (u 0xE0A3) [Mpp true]);
    ("noteheadBlackSmall", def (u 0xE0A4) []);
    ("noteheadFullSmall", def (u 0xE0A4)
       [Mpp true; NotSmufl (JSBool true); SmuflEquivalents ["noteheadBlackSmall"]]);
    ("noteheadSlashVerticalEnds", def (u 0xE100) []);
    ("noteheadSlashHorizontalEnds", def (u 0xE101) []);
    ("noteheadSlashWhiteWhole", def (u 0xE102) []);
    ("noteheadSlashWhiteHalf", def (u 0xE103) []);
    ("augmentationDot", def (u 0xE1E7) [Mpp true]);
    ("stem", def (u 0xE210) [Mpp true]);
    ("tremoloBeam", def (u 0xE1F1 +:+ " " +:+ u 0xE1FA +:+ u 0xE1F1)
       [NotSmufl (JSBool true); OtherSmuflDivergenceJustification "Cannot be rendered using a font"]);
    ("tremoloMark", def (u 0xE1F1 +:+ " " +:+ u 0xE1FA +:+ u 0xE1F1)
       [Mpp true; NotSmufl (JSBool true)]);
    ("multipleNoteTremolo", def (u 0xE1F1 +:+ " " +:+ u 0xE1FA +:+ u 0xE1F1)
       [Mpp true; NotSmufl (JSBool true)]);
    ("singleNoteTremolo", def (u 0xE220) [Mpp true; NotSmufl (JSBool true)]);
    ("tremolo1", def (u 0xE220) []);
    ("tremolo2", def (u 0xE221) []);
    ("tremolo3", def (u 0xE222) []);
    ("tremolo4", def (u 0xE223) []);
    ("tremolo5", def (u 0xE224) []);
    ("buzzRoll", def (u 0xE22A) []);
    ("flag8thUp", def (u 0xE1D7) [Mpp true]);
    ("flag8thDown", def (u 0xE1D8) [Mpp true]);
    ("flag16thUp", def (u 0xE1D9) [Mpp true]);
    ("flag16thDown", def (u 0xE1DA) [Mpp true]);
    ("flag32ndUp", def (u 0xE1DB) [Mpp true]);
    ("flag32ndDown", def (u 0xE1DC) [Mpp true]);
    ("flag64thUp", def (u 0xE1DD) [Mpp true]);
    ("flag64thDown", def (u 0xE1DE) [Mpp true]);
    ("flag128thUp", def (u 0xE1DF) []);
    ("flag128thDown", def (u 0xE1E0) []);
    ("flag256thUp", def (u 0xE1E1) []);
    ("flag256thDown", def (u 0xE1E2) []);
    ("flag512thUp", def (u 0xE1E3) []);
    ("flag512thDown", def (u 0xE1E4) []);
    ("flag1024thUp", def (u 0xE1E5) []);
    ("flag1024thDown", def (u 0xE1E6) []);
    ("keySignature", def (u 0xE269) [Mpp true; NotSmufl (JSBool true); Container true]);
    ("accidentalFlat", def (u 0xE260) [Mpp true]);
    ("accidentalNatural", def (u 0xE261) [Mpp true]);
    ("accidentalSharp", def (u 0xE262) [Mpp true]);
    ("accidentalDoubleSharp", def (u 0xE263) [Mpp true]);
    ("accidentalDoubleFlat", def (u 0xE264) [Mpp true]);
    ("accidentalTripleSharp", def (u 0xE265) []);
    ("accidentalTripleFlat", def (u 0xE266) []);
    ("accidentalNaturalFlat", def (u 0xE267) []);
    ("accidentalNaturalSharp", def (u 0xE268) []);
    ("accidentalSharpSharp", def (u 0xE269) []);
    ("accidentalParensLeft", def (u 0xE26A) []);
    ("accidentalParensRight", def (u 0xE26B) []);
    ("accidentalBracketLeft", def (u 0xE26C) []);
    ("accidentalBracketRight", def (u 0xE26D) []);
    ("double_sharp", def (u 0xE263)
       [Mpp true; NotSmufl (JSBool true); SmuflEquivalents ["accidentalDoubleSharp"]]);
    ("double_flat", def (u 0xE264)
       [Mpp true; NotSmufl (JSBool true); SmuflEquivalents ["accidentalDoubleFlat"]]);
    ("articulationAccent", def (u 0xE4A0)
       [Mpp true; NotSmufl (JSBool true); SmuflEquivalents ["articAccentAbove"; "articAccentBelow"]]);
    ("articulationMarcatoAbove", def (u 0xE4AC)
       [Mpp true; NotSmufl (JSBool true); SmuflEquivalents ["articMarcatoAbove"]]);
    ("articulationMarcatoBelow", def (u 0xE4AD)
       [Mpp true; NotSmufl (JSBool true); SmuflEquivalents ["articMarcatoBelow"]]);
    ("articulationStaccato", def (u 0xE4A2)
       [Mpp true; NotSmufl (JSBool true); SmuflEquivalents ["articStaccatoAbove"; "articStaccatoBelow"]]);
    ("articulationTenuto", def (u 0xE4A4)
       [Mpp true; NotSmufl (JSBool true); SmuflEquivalents ["articTenutoAbove"; "articTenutoBelow"]]);
    ("articAccentAbove", def (u 0xE4A0) []);
    ("articAccentBelow", def (u 0xE4A1) []);
    ("articStaccatoAbove", def (u 0xE4A2) []);
    ("articStaccatoBelow", def (u 0xE4A3) []);
    ("articTenutoAbove", def (u 0xE4A4) []);
    ("articTenutoBelow", def (u 0xE4A5) []);
    ("articStaccatissimoAbove", def (u 0xE4A6) []);
    ("articStaccatissimoBelow", def (u 0xE4A7) []);
    ("articMarcatoAbove", def (u 0xE4AC) []);
    ("articMarcatoBelow", def (u 0xE4AD) []);
    ("breathMark", def (u 0xE4CE)
       [Mpp true; NotSmufl (JSBool true); SmuflEquivalents ["breathMarkComma"; "breathMarkTick"; "breathMarkUpbow"]]);
    ("fermataAbove", def (u 0xE4C0) [Mpp true]);
    ("fermataBelow", def (u 0xE4C1) [Mpp true]);
    ("breathMarkComma", def (u 0xE4CE) []);
    ("breathMarkTick", def (u 0xE4CF) []);
    ("breathMarkUpbow", def (u 0xE4D0) []);
    ("caesura", def (u 0xE4D1) []);
    ("restLonga", def (u 0xE01A +:+ u 0x00A0 +:+ u 0x00A0 +:+ u 0xE4E1) []);
    ("restDoubleWhole", def (u 0xE01A +:+ u 0x00A0 +:+ u 0x00A0 +:+ u 0xE4E2) []);
    ("restBreve", def (u 0xE01A +:+ u 0x00A0 +:+ u 0x00A0 +:+ u 0xE4E2)
       [NotSmufl (JSBool true); SmuflEquivalents ["restDoubleWhole"]]);
    ("restWhole", def (u 0xE01A +:+ u 0x00A0 +:+ u 0x00A0 +:+ u 0xE4E3) [Mpp true]);
    ("restSemibreve", def (u 0xE01A +:+ u 0x00A0 +:+ u 0x00A0 +:+ u 0xE4E3)
       [NotSmufl (JSBool true); SmuflEquivalents ["restWhole"]]);
    ("restHalf", def (u 0xE01A +:+ u 0x00A0 +:+ u 0x00A0 +:+ u 0xE4E4) [Mpp true]);
    ("restMinim", def (u 0xE01A +:+ u 0x00A0 +:+ u 0x00A0 +:+ u 0xE4E4)
       [NotSmufl (JSBool true); SmuflEquivalents ["restHalf"]]);
    ("restQuarter", def (u 0xE4E5) [Mpp true]);
    ("restCrotchet", def (u 0xE4E5) [NotSmufl (JSBool true); SmuflEquivalents ["restQuarter"]]);
    ("rest8th", def (u 0xE4E6) [Mpp true]);
    ("restQuaver", def (u 0xE4E6) [NotSmufl (JSBool true); SmuflEquivalents ["rest8th"]]);
    ("rest16th", def (u 0xE4E7) [Mpp true]);
    ("restSemiquaver", def (u 0xE4E7) [NotSmufl (JSBool true); SmuflEquivalents ["rest16th"]]);
    ("rest32nd", def (u 0xE4E8) [Mpp true]);
    ("restDemisemiquaver", def (u 0xE4E8) [NotSmufl (JSBool true); SmuflEquivalents ["rest32nd"]]);
    ("rest64th", def (u 0xE4E9) [Mpp true]);
    ("rest128th", def (u 0xE4EA) []);
    ("rest256th", def (u 0xE4EB) []);
    ("rest512th", def (u 0xE4EC) []);
    ("rest1024th", def (u 0xE4ED) []);
    ("restHBar", def (u 0xE4EE) []);
    ("restText", def "R" [NotSmufl (JSBool true); Transcribable true]);
    ("multiMeasureRest", def (u 0xE4EE)
       [Mpp true; NotSmufl (JSBool true); SmuflEquivalents ["restHBar"]]);
    ("repeat1Bar", def (u 0xE500) [Mpp true]);
    ("repeatOneBar", def (u 0xE500) [NotSmufl (JSBool true); SmuflEquivalents ["repeat1Bar"]]);
    ("repeat2Bars", def (u 0xE501) []);
    ("repeat4Bars", def (u 0xE502) []);
    ("repeatBarUpperDot", def (u 0xE503) []);
    ("repeatBarSlash", def (u 0xE504) []);
    ("repeatBarLowerDot", def (u 0xE505) []);
    ("unisonoText", def "col." [NotSmufl (JSBool true); Transcribable true]);
    ("unisonoContinuation", def (u 0xE00A) [NotSmufl (JSBool true)]);
    ("transpositionText", def (u 0xE510)
       [Mpp true; NotSmufl (JSBool true); SmuflEquivalents ["ottava"]; Transcribable true]);
    ("ottava", def (u 0xE510) []);
    ("ottavaAlta", def (u 0xE511) []);
    ("ottavaBassa", def (u 0xE512) []);
    ("ottavaBassaBa", def (u 0xE513) []);
    ("dynamicsText", def (u 0xE52D)
       [Mpp true; NotSmufl (JSBool true); Container true; Transcribable true]);
    ("dynamicPiano", def (u 0xE520) []);
    ("dynamicMezzo", def (u 0xE521) []);
    ("dynamicForte", def (u 0xE522) []);
    ("dynamicRinforzando", def (u 0xE523) []);
    ("dynamicSforzando", def (u 0xE524) []);
    ("dynamicZ", def (u 0xE525) []);
    ("dynamicNiente", def (u 0xE526) []);
    ("dynamicCrescendo", def "cres." [NotSmufl (JSBool true); Transcribable true]);
    ("dynamicCrescendoSpanner", def ("_" +:+ u 0x00A0 +:+ "_")
       [NotSmufl (JSBool true); OtherSmuflDivergenceJustification "Cannot be rendered using a font"]);
    ("dynamicDiminuendo", def "dim." [NotSmufl (JSBool true); Transcribable true]);
    ("dynamicDiminuendoSpanner", def ("_" +:+ u 0x00A0 +:+ "_")
       [NotSmufl (JSBool true); OtherSmuflDivergenceJustification "Cannot be rendered using a font"]);
    ("dynamicCrescendoHairpin", def (u 0xE53E) [Mpp true]);
    ("dynamicDiminuendoHairpin", def (u 0xE53F) [Mpp true]);
    ("dynamicNienteForHairpin", def (u 0xE541) []);
    ("dynamicLetterF", def (u 0xE522)
       [Mpp true; NotSmufl (JSBool true); SmuflEquivalents ["dynamicForte"]]);
    ("dynamicLetterM", def (u 0xE521)
       [Mpp true; NotSmufl (JSBool true); SmuflEquivalents ["dynamicMezzo"]]);
    ("dynamicLetterN", def (u 0xE526)
       [Mpp true; NotSmufl (JSBool true); SmuflEquivalents ["dynamicNiente"]]);
    ("dynamicLetterP", def (u 0xE520)
       [Mpp true; NotSmufl (JSBool true); SmuflEquivalents ["dynamicPiano"]]);
    ("dynamicLetterR", def (u 0xE523)
       [Mpp true; NotSmufl (JSBool true); SmuflEquivalents ["dynamicRinforzando"]]);
    ("dynamicLetterS", def (u 0xE524)
       [Mpp true; NotSmufl (JSBool true); SmuflEquivalents ["dynamicSforzando"]]);
    ("dynamicLetterZ", def (u 0xE525)
       [Mpp true; NotSmufl (JSBool true); SmuflEquivalents ["dynamicZ"]]);
    ("lyricsText", def "ly" [Mpp true; NotSmufl (JSBool true); Transcribable true]);
    ("verseNumber", def "1." [NotSmufl (JSBool true); Transcribable true]);
    ("lyricsUnisono", def (u 0xE00A) [NotSmufl (JSBool true)]);
    ("tempoText", def "te"
       [Mpp true; NotSmufl (JSBool true); OtherSmuflDivergenceJustification "Possibly a composite object"; Transcribable true]);
    ("tempoRitardando", def "rit." [Mpp false; NotSmufl (JSBool true); Transcribable true]);
    ("tempoRitardandoSpanner", def ("_" +:+ u 0x00A0 +:+ "_")
       [NotSmufl (JSBool true); OtherSmuflDivergenceJustification "Cannot be rendered using a font"]);
    ("tempoAccelerando", def "acc." [Mpp false; NotSmufl (JSBool true); Transcribable true]);
    ("tempoAccelerandoSpanner", def ("_" +:+ u 0x00A0 +:+ "_")
       [NotSmufl (JSBool true); OtherSmuflDivergenceJustification "Cannot be rendered using a font"]);
    ("tempoATempo", def "a tempo" [Mpp false; NotSmufl (JSBool true); Transcribable true]);
    ("interpretationText", def "in" [NotSmufl (JSBool true); Transcribable true]);
    ("metadataText", def "M" [NotSmufl (JSBool true); Transcribable true]);
    ("measureNumber", def "mn" [NotSmufl (JSBool true); Transcribable true]);
    ("pageNumber", def "pn" [NotSmufl (JSBool true); Transcribable true]);
    ("otherText", def "T" [Mpp true; NotSmufl (JSBool true); Transcribable true]);
    ("ornament", def (u 0xE56F)
       [Mpp true; NotSmufl (JSBool true); OtherSmuflDivergenceJustification "Generinc unspecified ornament"]);
    ("graceNoteSlashStemUp", def (u 0xE560) []);
    ("graceNoteSlashStemDown", def (u 0xE561) []);
    ("ornamentTrill", def (u 0xE566) [Mpp true]);
    ("ornamentTurn", def (u 0xE567) []);
    ("ornamentTurnInverted", def (u 0xE568) []);
    ("ornamentTurnSlash", def (u 0xE569) []);
    ("ornamentTurnUp", def (u 0xE56A +:+ "}") []);
    ("ornamentTurnUpS", def (u 0xE56B) []);
    ("ornamentShortTrill", def (u 0xE56C) []);
    ("ornamentMordent", def (u 0xE56D) []);
    ("ornamentTremblement", def (u 0xE56E) []);
    ("ornamentHaydn", def (u 0xE56F) []);
    ("arpeggio", def (u 0xE63C) [Mpp true; NotSmufl (JSBool true); SmuflEquivalents ["arpeggiato"]]);
    ("arpeggiato", def (u 0xE63C) []);
    ("arpeggiatoUp", def (u 0xE634) []);
    ("arpeggiatoDown", def (u 0xE635) []);
    ("tuplet", def (u 0xE1F0 +:+ u 0xE201 +:+ u 0xE1F0 +:+ u 0xE202 +:+ u 0xE1F0 +:+ u 0xE203)
       [Mpp true; NotSmufl (JSBool true); Container true]);
    ("tupletBracket", def (u 0xE201 +:+ " " +:+ u 0xE203)
       [Mpp true; NotSmufl (JSBool true); OtherSmuflDivergenceJustification "Cannot be rendered using a font"]);
    ("tuplet0", def (u 0xE880) []);
    ("tuplet1", def (u 0xE881) []);
    ("tuplet2", def (u 0xE882) []);
    ("tuplet3", def (u 0xE883) []);
    ("tuplet4", def (u 0xE884) []);
    ("tuplet5", def (u 0xE885) []);
    ("tuplet6", def (u 0xE886) []);
    ("tuplet7", def (u 0xE887) []);
    ("tuplet8", def (u 0xE888) []);
    ("tuplet9", def (u 0xE889) []);
    ("tupletColon", def (u 0xE88A) []);
    ("beam", def (u 0xE1F0 +:+ u 0xE1F2)
       [Mpp true; NotSmufl (JSBool true); OtherSmuflDivergenceJustification "Cannot be rendered using a font"]);
    ("slur", def (u 0xE4BB)
       [Mpp true; NotSmufl (JSBool true); OtherSmuflDivergenceJustification "Cannot be rendered using a font"]);
    ("tie", def (u 0xE4BB)
       [Mpp true; NotSmufl (JSBool true); OtherSmuflDivergenceJustification "Cannot be rendered using a font"]);
    ("figuredBassText", def "B"
       [Mpp true; NotSmufl (JSBool true); OtherSmuflDivergenceJustification "Possibly a composite object"; Transcribable true]);
    ("wiggleTrill", def (u 0xEAA4 +:+ u 0xEAA4 +:+ u 0xEAA4) [Mpp true]);
    ("dottedHorizontalSpanner", def ("_" +:+ u 0x00A0 +:+ "_") [Mpp true]);
    ("horizontalSpanner", def "_" [Mpp true]);
    ("glissando", def "/" [Mpp true]);
    ("characterCapitalA", def "A" [Mpp true; NotSmufl (JSBool true)]);
    ("characterCapitalB", def "B" [Mpp true; NotSmufl (JSBool true)]);
    ("characterCapitalC", def "C" [Mpp true; NotSmufl (JSBool true)]);
    ("characterCapitalD", def "D" [Mpp true; NotSmufl (JSBool true)]);
    ("characterCapitalE", def "E" [Mpp true; NotSmufl (JSBool true)]);
    ("characterCapitalF", def "F" [Mpp true; NotSmufl (JSBool true)]);
    ("characterCapitalG", def "G" [Mpp true; NotSmufl (JSBool true)]);
    ("characterCapitalH", def "H" [Mpp true; NotSmufl (JSBool true)]);
    ("characterCapitalI", def "I" [Mpp true; NotSmufl (JSBool true)]);
    ("characterCapitalJ", def "J" [Mpp true; NotSmufl (JSBool true)]);
    ("characterCapitalK", def "K" [Mpp true; NotSmufl (JSBool true)]);
    ("characterCapitalL", def "L" [Mpp true; NotSmufl (JSBool true)]);
    ("characterCapitalM", def "M" [Mpp true; NotSmufl (JSBool true)]);
    ("characterCapitalN", def "N" [Mpp true; NotSmufl (JSBool true)]);
    ("characterCapitalO", def "O" [Mpp true; NotSmufl (JSBool true)]);
    ("characterCapitalP", def "P" [Mpp true; NotSmufl (JSBool true)]);
    ("characterCapitalQ", def "Q" [Mpp true; NotSmufl (JSBool true)]);
    ("characterCapitalR", def "R" [Mpp true; NotSmufl (JSBool true)]);
    ("characterCapitalS", def "S" [Mpp true; NotSmufl (JSBool true)]);
    ("characterCapitalT", def "T" [Mpp true; NotSmufl (JSBool true)]);
    ("characterCapitalU", def "U" [Mpp true; NotSmufl (JSBool true)]);
    ("characterCapitalV", def "V" [Mpp true; NotSmufl (JSBool true)]);
    ("characterCapitalW", def "W" [Mpp true; NotSmufl (JSBool true)]);
    ("characterCapitalX", def "X" [Mpp true; NotSmufl (JSBool true)]);
    ("characterCapitalY", def "Y" [Mpp true; NotSmufl (JSBool true)]);
    ("characterCapitalZ", def "Z" [Mpp true; NotSmufl (JSBool true)]);
    ("characterSmallA", def "a" [Mpp true; NotSmufl (JSBool true)]);
    ("characterSmallB", def "b" [Mpp true; NotSmufl (JSBool true)]);
    ("characterSmallC", def "c" [Mpp true; NotSmufl (JSBool true)]);
    ("characterSmallD", def "d" [Mpp true; NotSmufl (JSBool true)]);
    ("characterSmallE", def "e" [Mpp true; NotSmufl (JSBool true)]);
    ("characterSmallF", def "f" [Mpp true; NotSmufl (JSBool true)]);
    ("characterSmallG", def "g" [Mpp true; NotSmufl (JSBool true)]);
    ("characterSmallH", def "h" [Mpp true; NotSmufl (JSBool true)]);
    ("characterSmallI", def "i" [Mpp true; NotSmufl (JSBool true)]);
    ("characterSmallJ", def "j" [Mpp true; NotSmufl (JSBool true)]);
    ("characterSmallK", def "k" [Mpp true; NotSmufl (JSBool true)]);
    ("characterSmallL", def "l" [Mpp true; NotSmufl (JSBool true)]);
    ("characterSmallM", def "m" [Mpp true; NotSmufl (JSBool true)]);
    ("characterSmallN", def "n" [Mpp true; NotSmufl (JSBool true)]);
    ("characterSmallO", def "o" [Mpp true; NotSmufl (JSBool true)]);
    ("characterSmallP", def "p" [Mpp true; NotSmufl (JSBool true)]);
    ("characterSmallQ", def "q" [Mpp true; NotSmufl (JSBool true)]);
    ("characterSmallR", def "r" [Mpp true; NotSmufl (JSBool true)]);
    ("characterSmallS", def "s" [Mpp true; NotSmufl (JSBool true)]);
    ("characterSmallT", def "t" [Mpp true; NotSmufl (JSBool true)]);
    ("characterSmallU", def "u" [Mpp true; NotSmufl (JSBool true)]);
    ("characterSmallV", def "v" [Mpp true; NotSmufl (JSBool true)]);
    ("characterSmallW", def "w" [Mpp true; NotSmufl (JSBool true)]);
    ("characterSmallX", def "x" [Mpp true; NotSmufl (JSBool true)]);
    ("characterSmallY", def "y" [Mpp true; NotSmufl (JSBool true)]);
    ("characterSmallZ", def "z" [Mpp true; NotSmufl (JSBool true)]);
    ("characterDot", def "." [Mpp true; NotSmufl (JSBool true)]);
    ("characterOther", def "$" [Mpp true; NotSmufl (JSBool true)]);
    ("numeral0", def "0" [Mpp true; NotSmufl (JSBool true)]);
    ("numeral1", def "1" [Mpp true; NotSmufl (JSBool true)]);
    ("numeral2", def "2" [Mpp true; NotSmufl (JSBool true)]);
    ("numeral3", def "3" [Mpp true; NotSmufl (JSBool true)]);
    ("numeral4", def "4" [Mpp true; NotSmufl (JSBool true)]);
    ("numeral5", def "5" [Mpp true; NotSmufl (JSBool true)]);
    ("numeral6", def "6" [Mpp true; NotSmufl (JSBool true)]);
    ("numeral7", def "7" [Mpp true; NotSmufl (JSBool true)]);
    ("numeral8", def "8" [Mpp true; NotSmufl (JSBool true)]);
    ("numeral9", def "9" [Mpp true; NotSmufl (JSBool true)]);
    ("stemStructural", def (u 0xE210) [Mpp false; NotSmufl (JSBool true)]);
    ("stemStructuralPartial", def (u 0xE210) [Mpp false; NotSmufl (JSBool true)]);
    ("stemStructuralBridgeLeft", def (u 0x2282) [Mpp false; NotSmufl (JSBool true)]);
    ("stemStructuralBridgeRight", def (u 0x2283) [Mpp false; NotSmufl (JSBool true)]);
    ("flagStructuralUp", def (u 0xE1D7) [Mpp false; NotSmufl (JSBool true)]);
    ("flagStructuralDown", def (u 0xE1D8) [Mpp false; NotSmufl (JSBool true)]);
    ("slurStructuralDown", def (u 0xE4BB) [Mpp false; NotSmufl (JSBool true)]);
    ("slurStructuralUp", def (u 0xE4BA) [Mpp false; NotSmufl (JSBool true)]);
    ("beamStructural", def (u 0xE1F0 +:+ u 0xE1F2) [Mpp false; NotSmufl (JSBool true)]);
    ("beamStructuralPartialLeft", def (u 0xE1F0 +:+ u 0xE1F7) [Mpp false; NotSmufl (JSBool true)]);
    ("beamStructuralPartialRight", def (u 0xE1F2) [Mpp false; NotSmufl (JSBool true)]);
    ("beamStructuralPartialMiddle", def (u 0xE1F2 +:+ u 0xE1F7) [Mpp false; NotSmufl (JSBool true)]);
    ("beamStructuralBridgeUp", def (u 0x2229) [Mpp false; NotSmufl (JSBool true)]);
    ("beamStructuralBridgeDown", def (u 0x222A) [Mpp false; NotSmufl (JSBool true)]);
    ("beamStructuralUnfoldingDown", def (u 0x2571) [Mpp false; NotSmufl (JSBool true)]);
    ("beamStructuralUnfoldingUp", def (u 0x2572) [Mpp false; NotSmufl (JSBool true)]);
    ("voiceExchangeDown", def (u 0x2571) [Mpp false; NotSmufl (JSBool true)]);
    ("voiceExchangeUp", def (u 0x2572) [Mpp false; NotSmufl (JSBool true)]);
    ("parensImpliedLeft", def "(" [Mpp false; NotSmufl (JSBool true)]);
    ("parensImpliedRight", def ")" [Mpp false; NotSmufl (JSBool true)]);
    ("noteheadImplied", def ("(" +:+ u 0xE0A4 +:+ ")") [Mpp false; NotSmufl (JSBool true)]);
    ("noteheadOpenImplied", def ("(" +:+ u 0xE0A3 +:+ ")") [Mpp false; NotSmufl (JSBool true)]);
    ("scaleDegreeMark", def "^" [Mpp false; NotSmufl (JSBool true)]);
    ("characterColonDotUpper", def (u 0x00B7) [Mpp false; NotSmufl (JSBool true)]);
    ("characterColonDotLower", def (u 0x00B7) [Mpp false; NotSmufl (JSBool true)]);
    ("characterExclamation", def "!" [Mpp false; NotSmufl (JSBool true)]);
    ("characterHyphen", def (u 0xE090) [Mpp false; NotSmufl (JSBool true)]);
    ("characterEqual", def (u 0xE08F) [Mpp false; NotSmufl (JSBool true)]);
    ("braceAnalytical", def (u 0x007B) [Mpp false; NotSmufl (JSBool true)]);
    ("barlineStructuralDotted", def (u 0x250A) [Mpp false; NotSmufl (JSBool true)]);
    ("barlineStructuralDottedPartial", def (u 0x2502) [Mpp false; NotSmufl (JSBool true)]);
    ("keyAnalysis", def "Gm:" [Mpp false; NotSmufl (JSBool true)]);
    ("analyticalI", def (u 0x2160) [Mpp false; NotSmufl (JSBool true)]);
    ("analyticalII", def (u 0x2161) [Mpp false; NotSmufl (JSBool true)]);
    ("analyticalIII", def (u 0x2162) [Mpp false; NotSmufl (JSBool true)]);
    ("analyticalIV", def (u 0x2163) [Mpp false; NotSmufl (JSBool true)]);
    ("analyticalV", def (u 0x2164) [Mpp false; NotSmufl (JSBool true)]);
    ("analyticalVI", def (u 0x2165) [Mpp false; NotSmufl (JSBool true)]);
    ("analyticalVII", def (u 0x2166) [Mpp false; NotSmufl (JSBool true)]);
    ("numeralRomanI", def (u 0x2160) [Mpp false; NotSmufl (JSBool true)]);
    ("numeralRomanII", def (u 0x2161) [Mpp false; NotSmufl (JSBool true)]);
    ("numeralRomanIII", def (u 0x2162) [Mpp false; NotSmufl (JSBool true)]);
    ("numeralRomanIV", def (u 0x2163) [Mpp false; NotSmufl (JSBool true)]);
    ("numeralRomanV", def (u 0x2164) [Mpp false; NotSmufl (JSBool true)]);
    ("numeralRomanVI", def (u 0x2165) [Mpp false; NotSmufl (JSBool true)]);
    ("numeralRomanVII", def (u 0x2166) [Mpp false; NotSmufl (JSBool true)]);
    ("secondaryHarmonyArrowRight", def (u 0x21BA) [Mpp false; NotSmufl (JSBool true)]);
    ("secondaryHarmonyArrowLeft", def (u 0x21BB) [Mpp false; NotSmufl (JSBool true)]);
    ("circleEmphasis", def (u 0x25EF) [Mpp false; NotSmufl (JSBool true)]);
    ("circleMeasureNumber", def (u 0x25CB) [Mpp false; NotSmufl (JSBool true)])
  ].

End Table.

(** ** The exported views *)

(** [parseMungClassDefinition(key, defs[key])], when the lookup yields a
    definition.  [None] stands for the other two outcomes: on [undefined]
    the function throws a [TypeError], and an inherited built-in is not a
    definition. *)
Definition definition_of
    (defs : object MungClassDefinition) (key : string) : option MungClass :=
  match Get defs key with
  | Value def => Some (parseMungClassDefinition key def)
  | _ => None
  end.

(** [Object.keys(defs).sort().map((key) => parseMungClassDefinition(key,
    defs[key]))].  The result is [None] when some lookup yields no
    definition; [mung_classes_total] shows that none does. *)
Definition mung_classes
    (defs : object MungClassDefinition) : option (list MungClass) :=
  mapM (definition_of defs) (Array_sort (Object_keys defs)).

(** [classes.map((mc) => mc.className)]. *)
Definition mung_class_names (classes : list MungClass) : list string :=
  className <$> classes.

(** [classes.reduce((dict, mc) => { dict[mc.className] = mc; return dict },
    {})]. *)
Definition mung_classes_by_name (classes : list MungClass) : object MungClass :=
  foldl (λ dict mc, put (className mc) mc dict) [] classes.

(** List of all known mung classes, sorted by the class name. *)
Definition MUNG_CLASSES : list MungClass :=
  default [] (mung_classes DEFINITIONS).

(** List of all known mung class names, sorted. *)
Definition MUNG_CLASS_NAMES : list string := mung_class_names MUNG_CLASSES.

(** Dictionary of all known mung classes, with key being the class name. *)
Definition MUNG_CLASSES_BY_NAME : object MungClass :=
  mung_classes_by_name MUNG_CLASSES.

(** The runs of the construction that the language allows: the keys are
    sorted by any implementation of [sort]. *)
Inductive registry_run
    (defs : object MungClassDefinition) : list MungClass → Prop :=
  | registry_run_intro keys classes :
      sorted_array (Object_keys defs) keys →
      mapM (definition_of defs) keys = Some classes →
      registry_run defs classes.

(** ** The construction in a store

    The same construction with the objects where the program has them: in
    a store, under references.  Reading allocates nothing, a new object
    or array takes a new cell, [sort] overwrites the cell of its array.  A
    computation takes the store and returns its result with the new store,
    or [None] when it throws.  The store is all the state there is: the
    code calls nothing that reads or writes anything else.  References
    are numbered in the order of allocation; the numbers have no other
    meaning. *)

Module Store.

Abbreviation loc := nat.

(** An object of type [MungClassDefinition]; [smuflEquivalents] refers to
    an array of strings. *)
Module DefinitionObject.
Record t : Type := {
  uc : string;
  mpp : option bool;
  notSmufl : option bool_or_string;
  smuflEquivalents : option loc;
  container : option bool;
  otherSmuflDivergenceJustification : option string;
  transcribable : option bool
}.
End DefinitionObject.

(** An object of type [MungClass]; [smuflEquivalents] refers to an array
    of strings. *)
Module ClassObject.
Record t : Type := {
  className : string;
  unicode : string;
  isSmufl : bool;
  smuflEquivalents : option loc;
  isMuscimaPP20 : bool;
  isContainer : bool;
  otherSmuflDivergenceJustification : option string;
  justifiedSmuflDivergence : option bool;
  isTranscribable : bool
}.
End ClassObject.

Inductive cell : Type :=
  | StringArray (l : list string)
  | ClassArray (l : list loc)
  | Table (o : object loc)
  | RawDefinition (d : DefinitionObject.t)
  | Descriptor (c : ClassObject.t).

(** The store: the cell of reference [l] is the [l]-th one. *)
Abbreviation heap := (list cell).

Definition M (A : Type) : Type := heap → option (A * heap).

Definition ret {A} (a : A) : M A := λ h, Some (a, h).

Definition bind {A B} (m : M A) (k : A → M B) : M B :=
  λ h, match m h with
       | Some (a, h') => k a h'
       | None => None
       end.

(** A new object or array: the next free cell. *)
Definition alloc (c : cell) : M loc := λ h, Some (length h, h ++ [c]).

(** [Object.keys(t)] returns a new array. *)
Definition Object_keys (t : loc) : M loc :=
  λ h, match h !! t with
       | Some (Table o) => alloc (StringArray (JS.Object_keys o)) h
       | _ => None
       end.

(** [a.sort()] sorts the array [a] in place and returns it. *)
Definition sort (a : loc) : M loc :=
  λ h, match h !! a with
       | Some (StringArray l) =>
           Some (a, <[a := StringArray (Array_sort l)]> h)
       | _ => None
       end.

(** [t[key]]. *)
Definition index (t : loc) (key : string) : M (property loc) :=
  λ h, match h !! t with
       | Some (Table o) => Some (Get o key, h)
       | _ => None
       end.

(** [parseMungClassDefinition(className, def)] reads the properties of
    [def] and returns a new object, which shares the array of equivalents
    with [def].  Reading a property of [undefined] throws; an inherited
    built-in is no definition either, and [MUNG_CLASSES] never passes
    one. *)
Definition parseMungClassDefinition
    (className : string) (def : property loc) : M loc :=
  λ h, match def with
       | Value l =>
           match h !! l with
           | Some (RawDefinition def) =>
               (* from here on [def] is the object referred to *)
               let isSmufl := logical_not (DefinitionObject.notSmufl def) in
               let isContainer :=
                 logical_not (logical_not (DefinitionObject.container def)) in
               let justifiedSmuflDivergence :=
                 if isSmufl then None
                 else Some (isContainer
                            || is_true (DefinitionObject.transcribable def)
                            || is_defined
                                 (DefinitionObject.otherSmuflDivergenceJustification
                                    def)) in
               alloc
                 (Descriptor
                    {| ClassObject.className := className;
                       ClassObject.unicode := DefinitionObject.uc def;
                       ClassObject.isSmufl := isSmufl;
                       ClassObject.smuflEquivalents :=
                         DefinitionObject.smuflEquivalents def;
                       ClassObject.isMuscimaPP20 :=
                         logical_not
                           (logical_not (DefinitionObject.mpp def));
                       ClassObject.isContainer := isContainer;
                       ClassObject.otherSmuflDivergenceJustification :=
                         DefinitionObject.otherSmuflDivergenceJustification
                           def;
                       ClassObject.justifiedSmuflDivergence :=
                         justifiedSmuflDivergence;
                       ClassObject.isTranscribable :=
                         logical_not
                           (logical_not
                              (DefinitionObject.transcribable def)) |})
                 h
           | _ => None
           end
       | _ => None
       end.

(** The calls of the callback of [map], from the first element on. *)
Fixpoint calls (f : string → M loc) (l : list string) : M (list loc) :=
  match l with
  | [] => ret []
  | x :: l => bind (f x) (λ y, bind (calls f l) (λ ys, ret (y :: ys)))
  end.

(** [a.map(f)] returns a new array of the results of [f]. *)
Definition map (a : loc) (f : string → M loc) : M loc :=
  λ h, match h !! a with
       | Some (StringArray l) =>
           bind (calls f l) (λ ys, alloc (ClassArray ys)) h
       | _ => None
       end.

(** [Object.keys(DEFINITIONS).sort().map((key) =>
    parseMungClassDefinition(key, DEFINITIONS[key]))]. *)
Definition MUNG_CLASSES (DEFINITIONS : loc) : M loc :=
  bind (Object_keys DEFINITIONS) (λ keys,
  bind (sort keys) (λ sorted,
  map sorted (λ key,
    bind (index DEFINITIONS key) (λ def,
    parseMungClassDefinition key def)))).

(** *** What a reference stands for

    The value that a reference holds in a store, with every array read
    out; [None] when the store has no such value there. *)

Definition read_strings (h : heap) (a : option loc)
    : option (option (list string)) :=
  match a with
  | None => Some None
  | Some a =>
      match h !! a with
      | Some (StringArray l) => Some (Some l)
      | _ => None
      end
  end.

Definition read_definition (h : heap) (l : loc)
    : option MungClassDefinition :=
  match h !! l with
  | Some (RawDefinition d) =>
      equivalents ← read_strings h (DefinitionObject.smuflEquivalents d);
      Some {| MungClassDefinition.uc := DefinitionObject.uc d;
              MungClassDefinition.mpp := DefinitionObject.mpp d;
              MungClassDefinition.notSmufl := DefinitionObject.notSmufl d;
              MungClassDefinition.smuflEquivalents := equivalents;
              MungClassDefinition.container := DefinitionObject.container d;
              MungClassDefinition.otherSmuflDivergenceJustification :=
                DefinitionObject.otherSmuflDivergenceJustification d;
              MungClassDefinition.transcribable :=
                DefinitionObject.transcribable d |}
  | _ => None
  end.

Definition read_entry (h : heap) (e : string * loc)
    : option (string * MungClassDefinition) :=
  d ← read_definition h e.2; Some (e.1, d).

Definition read_table (h : heap) (t : loc)
    : option (object MungClassDefinition) :=
  match h !! t with
  | Some (Table o) => mapM (read_entry h) o
  | _ => None
  end.

Definition read_descriptor (h : heap) (c : ClassObject.t) : option MungClass :=
  equivalents ← read_strings h (ClassObject.smuflEquivalents c);
  Some {| className := ClassObject.className c;
          unicode := ClassObject.unicode c;
          isSmufl := ClassObject.isSmufl c;
          smuflEquivalents := equivalents;
          isMuscimaPP20 := ClassObject.isMuscimaPP20 c;
          isContainer := ClassObject.isContainer c;
          otherSmuflDivergenceJustification :=
            ClassObject.otherSmuflDivergenceJustification c;
          justifiedSmuflDivergence := ClassObject.justifiedSmuflDivergence c;
          isTranscribable := ClassObject.isTranscribable c |}.

Definition read_class (h : heap) (l : loc) : option MungClass :=
  match h !! l with
  | Some (Descriptor c) => read_descriptor h c
  | _ => None
  end.

Definition read_classes (h : heap) (r : loc) : option (list MungClass) :=
  match h !! r with
  | Some (ClassArray ls) => mapM (read_class h) ls
  | _ => None
  end.

(** A store with a table of two classes, one of which has equivalents,
    and with an object that the construction has no business with. *)
Definition example : heap :=
  [ StringArray ["brace"; "bracket"];
    RawDefinition
      {| DefinitionObject.uc := u 0xE000;
         DefinitionObject.mpp := Some true;
         DefinitionObject.notSmufl := Some (JSBool true);
         DefinitionObject.smuflEquivalents := Some 0;
         DefinitionObject.container := None;
         DefinitionObject.otherSmuflDivergenceJustification := None;
         DefinitionObject.transcribable := None |};
    RawDefinition
      {| DefinitionObject.uc := u 0xE000;
         DefinitionObject.mpp := Some true;
         DefinitionObject.notSmufl := None;
         DefinitionObject.smuflEquivalents := None;
         DefinitionObject.container := None;
         DefinitionObject.otherSmuflDivergenceJustification := None;
         DefinitionObject.transcribable := None |};
    Table [("staffGrouping", 1); ("brace", 2)];
    StringArray ["unrelated"] ].

(** The table that the cell 3 of [example] stands for. *)
Definition example_table : object MungClassDefinition :=
  [ ("staffGrouping",
     MungClassDefinition.def (u 0xE000)
       [MungClassDefinition.Mpp true;
        MungClassDefinition.NotSmufl (JSBool true);
        MungClassDefinition.SmuflEquivalents ["brace"; "bracket"]]);
    ("brace",
     MungClassDefinition.def (u 0xE000) [MungClassDefinition.Mpp true]) ].

End Store.

(** ** The properties of a descriptor that the specification names *)

(** The reasons for which a class may diverge from SMuFL: it is a
    container, it is transcribable, or it carries a justification. *)
Definition justification (d : MungClass) : Prop :=
  isContainer d = true ∨ isTranscribable d = true ∨
  is_Some (otherSmuflDivergenceJustification d).

(** The rule of the derived field [justifiedSmuflDivergence]: it is
    [undefined] for a SMuFL class; for any other class it is [true] if and
    only if the class has a justification, and [false] otherwise. *)
Definition divergence_rule (d : MungClass) : Prop :=
  (isSmufl d = true → justifiedSmuflDivergence d = None) ∧
  (isSmufl d = false →
     (justifiedSmuflDivergence d = Some true ↔ justification d) ∧
     (¬ justification d → justifiedSmuflDivergence d = Some false)).

(** The names that the descriptor [d] lists as SMuFL equivalents. *)
Definition equivalents (d : MungClass) : list string :=
  default [] (smuflEquivalents d).

(** A string of ASCII characters. *)
Definition ascii_string (s : string) : Prop :=
  Forall (λ a, (Ascii.N_of_ascii a < 128)%N) (String.list_ascii_of_string s).

(** ** Facts about objects, keys and sorting *)

Section Objects.
Context {V : Type}.
Implicit Types (o : object V) (k : string) (v : V).

Lemma own_put o k v k' :
  own (put k v o) k' = if decide (k' = k) then Some v else own o k'.
Proof.
  induction o as [|[k0 v0] o IH]; simpl.
  - done.
  - destruct (decide (k = k0)) as [->|Hk]; simpl.
    + by destruct (decide (k' = k0)).
    + rewrite IH. destruct (decide (k' = k0)) as [->|]; [|done].
      by rewrite decide_False by done.
Qed.

Lemma own_is_Some o k : is_Some (own o k) ↔ k ∈ o.*1.
Proof.
  induction o as [|[k0 v0] o IH]; simpl.
  - rewrite elem_of_nil. split; [by intros [? ?]|done].
  - rewrite elem_of_cons. destruct (decide (k = k0)) as [->|Hk].
    + split; [by left|by eexists].
    + rewrite IH. split; [by right|]. by intros [?|?].
Qed.

Lemma own_None o k : own o k = None ↔ k ∉ o.*1.
Proof. by rewrite <-own_is_Some, eq_None_not_Some. Qed.

Lemma put_keys o k v :
  (put k v o).*1 = if decide (k ∈ o.*1) then o.*1 else o.*1 ++ [k].
Proof.
  induction o as [|[k0 v0] o IH].
  - case_decide as Hin; [by apply elem_of_nil in Hin|done].
  - cbn [put]. destruct (decide (k = k0)) as [->|Hk].
    + rewrite decide_True by (rewrite fmap_cons; by left). done.
    + rewrite !fmap_cons, IH. cbn [fst].
      destruct (decide (k ∈ o.*1)) as [Hin|Hin].
      * by rewrite decide_True by (by right).
      * rewrite decide_False; [done|].
        rewrite elem_of_cons. by intros [?|?].
Qed.

Lemma put_keys_NoDup o k v : NoDup o.*1 → NoDup (put k v o).*1.
Proof.
  intros Ho. rewrite put_keys. case_decide; [done|].
  apply NoDup_app. split_and!; [done| |apply NoDup_singleton].
  intros x Hx ->%list_elem_of_singleton. done.
Qed.

Lemma object_literal_NoDup (l : list (string * V)) :
  NoDup (object_literal l).*1.
Proof.
  unfold object_literal.
  assert (NoDup (@nil (string * V)).*1) as Hnil by constructor.
  revert Hnil. generalize (@nil (string * V)).
  induction l as [|[k v] l IH]; intros o Ho; simpl; [done|].
  by apply IH, put_keys_NoDup.
Qed.

Lemma Object_keys_Permutation o : Object_keys o ≡ₚ o.*1.
Proof.
  unfold Object_keys.
  by rewrite merge_sort_Permutation, filter_app_complement.
Qed.

Lemma elem_of_Object_keys o k : k ∈ Object_keys o ↔ is_Some (own o k).
Proof. by rewrite Object_keys_Permutation, own_is_Some. Qed.

(** Indexing an object by one of its keys yields the own property. *)
Lemma Get_key o k : k ∈ Object_keys o → ∃ v, Get o k = Value v.
Proof.
  intros [v Hv]%elem_of_Object_keys. exists v. unfold Get. by rewrite Hv.
Qed.

Lemma Get_not_key o k :
  k ∉ Object_keys o →
  Get o k = if decide (k ∈ Object_prototype) then Builtin k else Undefined.
Proof.
  rewrite elem_of_Object_keys, <-eq_None_not_Some. unfold Get.
  by intros ->.
Qed.

End Objects.

Lemma Array_sort_sorted (l : list string) : sorted_array l (Array_sort l).
Proof.
  split; [apply merge_sort_Permutation|].
  apply (Sorted_merge_sort String.le).
Qed.

(** [sort] has one result, whatever the algorithm. *)
Lemma sorted_array_unique (l l1 l2 : list string) :
  sorted_array l l1 → sorted_array l l2 → l1 = l2.
Proof.
  intros [Hp1 Hs1] [Hp2 Hs2].
  apply (Sorted_unique String.le); [done..|].
  by rewrite Hp1, Hp2.
Qed.

(** ** The construction of the views *)

Section Construction.
Implicit Types (defs : object MungClassDefinition) (d : MungClass).

Lemma definition_of_Some defs key d :
  definition_of defs key = Some d ↔
  ∃ def, own defs key = Some def ∧ d = parseMungClassDefinition key def.
Proof.
  unfold definition_of, Get. destruct (own defs key) as [def|].
  - split; [intros [= <-]; by exists def|].
    by intros (def' & [= <-] & ->).
  - split; [by case_decide|by intros (? & ? & ?)].
Qed.

Lemma definition_of_className defs key d :
  definition_of defs key = Some d → className d = key.
Proof. by intros (def & _ & ->)%definition_of_Some. Qed.

Lemma definition_of_key defs key :
  key ∈ Object_keys defs → is_Some (definition_of defs key).
Proof.
  intros [def Hdef]%elem_of_Object_keys.
  exists (parseMungClassDefinition key def).
  apply definition_of_Some. by exists def.
Qed.

Lemma definitions_of_names defs keys classes :
  mapM (definition_of defs) keys = Some classes →
  mung_class_names classes = keys.
Proof.
  rewrite mapM_Some. unfold mung_class_names.
  induction 1 as [|key d keys classes Hd _ IH]; [done|].
  rewrite fmap_cons, IH. f_equal. by eapply definition_of_className.
Qed.

Lemma definitions_of_elem defs keys classes d :
  mapM (definition_of defs) keys = Some classes →
  d ∈ classes →
  ∃ def, own defs (className d) = Some def
         ∧ d = parseMungClassDefinition (className d) def.
Proof.
  rewrite mapM_Some.
  induction 1 as [|key d' keys classes Hd _ IH]; [by intros ?%elem_of_nil|].
  intros [->|Hin]%elem_of_cons; [|by apply IH].
  rewrite (definition_of_className _ _ _ Hd).
  by apply definition_of_Some.
Qed.

(** Loading the module never fails: every key that [Object.keys] returns
    is an own property of the table. *)
Lemma mung_classes_total defs : is_Some (mung_classes defs).
Proof.
  apply mapM_is_Some, Forall_forall. intros key Hkey.
  apply definition_of_key.
  destruct (Array_sort_sorted (Object_keys defs)) as [Hperm _].
  by rewrite <-Hperm.
Qed.

Lemma mung_classes_elem defs classes d :
  mung_classes defs = Some classes →
  d ∈ classes →
  ∃ def, own defs (className d) = Some def
         ∧ d = parseMungClassDefinition (className d) def.
Proof. unfold mung_classes. apply definitions_of_elem. Qed.

Lemma mung_classes_run defs classes :
  mung_classes defs = Some classes → registry_run defs classes.
Proof.
  intros Hclasses.
  by apply (registry_run_intro _ (Array_sort (Object_keys defs)));
    [apply Array_sort_sorted|].
Qed.

Lemma registry_run_names defs classes :
  registry_run defs classes →
  mung_class_names classes = Array_sort (Object_keys defs).
Proof.
  intros [keys classes' Hkeys Hclasses].
  rewrite (definitions_of_names _ _ _ Hclasses).
  eapply sorted_array_unique; [done|apply Array_sort_sorted].
Qed.

(** The dictionary built by [reduce], started from any dictionary [acc]
    whose entries are filed under their own class name. *)
Lemma by_name_acc_Some (classes : list MungClass) (acc : object MungClass) n d :
  (∀ d', own acc n = Some d' → className d' = n) →
  own (foldl (λ dict mc, put (className mc) mc dict) acc classes) n = Some d →
  className d = n.
Proof.
  revert acc. induction classes as [|mc classes IH]; intros acc Hacc; simpl.
  - apply Hacc.
  - apply IH. intros d'. rewrite own_put.
    case_decide as Hn; [by intros [= <-]|apply Hacc].
Qed.

Lemma by_name_acc_is_Some (classes : list MungClass) (acc : object MungClass) n :
  is_Some (own (foldl (λ dict mc, put (className mc) mc dict) acc classes) n)
  ↔ n ∈ mung_class_names classes ∨ is_Some (own acc n).
Proof.
  unfold mung_class_names.
  revert acc. induction classes as [|mc classes IH]; intros acc; simpl.
  - rewrite elem_of_nil. split; [by right|by intros [?|?]].
  - rewrite IH, own_put, elem_of_cons. case_decide as Hn.
    + split; [intros _; by left; left|by intros _; right].
    + split; [intros [?|?]; auto|intros [[?|?]|?]; auto; done].
Qed.

Lemma by_name_Some classes n d :
  own (mung_classes_by_name classes) n = Some d → className d = n.
Proof. by apply by_name_acc_Some. Qed.

Lemma by_name_is_Some classes n :
  is_Some (own (mung_classes_by_name classes) n)
  ↔ n ∈ mung_class_names classes.
Proof.
  unfold mung_classes_by_name. rewrite by_name_acc_is_Some. simpl.
  split; [intros [?|[? [=]]]; done|by left].
Qed.

Lemma Get_by_name_key classes n :
  n ∈ mung_class_names classes →
  ∃ d, Get (mung_classes_by_name classes) n = Value d ∧ className d = n.
Proof.
  intros [d Hd]%by_name_is_Some. exists d.
  split; [|by eapply by_name_Some]. unfold Get. by rewrite Hd.
Qed.

Lemma Get_by_name_unknown classes n :
  n ∉ mung_class_names classes →
  Get (mung_classes_by_name classes) n
  = if decide (n ∈ Object_prototype) then Builtin n else Undefined.
Proof.
  rewrite <-by_name_is_Some, <-eq_None_not_Some. unfold Get. by intros ->.
Qed.

End Construction.

(** ** The three constants *)

Lemma MUNG_CLASSES_loaded : mung_classes DEFINITIONS = Some MUNG_CLASSES.
Proof.
  unfold MUNG_CLASSES. by destruct (mung_classes_total DEFINITIONS) as [l ->].
Qed.

Lemma MUNG_CLASS_NAMES_eq : MUNG_CLASS_NAMES = mung_class_names MUNG_CLASSES.
Proof. reflexivity. Qed.

Lemma MUNG_CLASSES_BY_NAME_eq :
  MUNG_CLASSES_BY_NAME = mung_classes_by_name MUNG_CLASSES.
Proof. reflexivity. Qed.

Lemma MUNG_CLASS_NAMES_keys :
  MUNG_CLASS_NAMES = Array_sort (Object_keys DEFINITIONS).
Proof. apply registry_run_names, mung_classes_run, MUNG_CLASSES_loaded. Qed.

Lemma elem_of_MUNG_CLASS_NAMES n :
  n ∈ MUNG_CLASS_NAMES ↔ n ∈ Object_keys DEFINITIONS.
Proof.
  rewrite MUNG_CLASS_NAMES_keys.
  destruct (Array_sort_sorted (Object_keys DEFINITIONS)) as [Hperm _].
  by rewrite Hperm.
Qed.

Lemma elem_of_MUNG_CLASSES d :
  d ∈ MUNG_CLASSES →
  ∃ def, own DEFINITIONS (className d) = Some def
         ∧ d = parseMungClassDefinition (className d) def.
Proof. apply mung_classes_elem, MUNG_CLASSES_loaded. Qed.

(** The table has 378 entries, all under different names. *)
Lemma DEFINITIONS_length : length DEFINITIONS = 378.
Proof. vm_compute. reflexivity. Qed.

(** No key of the table is an array index, so [Object.keys] lists the
    classes in the order of the source. *)
Lemma DEFINITIONS_keys_in_order : Object_keys DEFINITIONS = DEFINITIONS.*1.
Proof. vm_compute. reflexivity. Qed.

(** The keys are ASCII: comparing them byte by byte is comparing them code
    unit by code unit. *)
Lemma DEFINITIONS_keys_ascii : Forall ascii_string (Object_keys DEFINITIONS).
Proof. unfold ascii_string. compute_done. Qed.

(** No class is called [__proto__]: every entry of the table and every
    assignment of [reduce] defines an own property. *)
Lemma DEFINITIONS_no_proto : "__proto__" ∉ Object_keys DEFINITIONS.
Proof. compute_done. Qed.

(** ** The derivation rule *)

Lemma parseMungClassDefinition_rule className def :
  divergence_rule (parseMungClassDefinition className def).
Proof.
  destruct def as [uc mpp notSmufl eqs container just transcribable].
  unfold divergence_rule, justification, parseMungClassDefinition; simpl.
  destruct (logical_not notSmufl); [by split|].
  split; [done|intros _].
  destruct container as [[]|], transcribable as [[]|], just as [j|]; cbn.
  all: first
    [ (* some reason holds: the field is [true] *)
      split; [split; [intros _; by eauto|done]|];
      intros Hnone; exfalso; apply Hnone; by eauto
    | (* no reason holds: the field is [false] *)
      split; [|done];
      split; [done|]; intros [[=]|[[=]|[? [=]]]] ].
Qed.

(** C1. Every descriptor that the derivation produces obeys the rule of
    [justifiedSmuflDivergence]: the field is undefined when [isSmufl] is
    true; when [isSmufl] is false it is true if and only if the class is a
    container, is transcribable or carries a justification, and false
    otherwise.  This holds of the result of [parseMungClassDefinition] on
    any definition, and so of every descriptor of [MUNG_CLASSES]. *)
Theorem justified_divergence_rule :
  (∀ className def,
     divergence_rule (parseMungClassDefinition className def)) ∧
  Forall divergence_rule MUNG_CLASSES.
Proof.
  split; [apply parseMungClassDefinition_rule|].
  apply Forall_forall. intros d (def & _ & ->)%elem_of_MUNG_CLASSES.
  apply parseMungClassDefinition_rule.
Qed.

(** C5. [isSmufl] is the negation of the truthiness of [notSmufl]: it is
    true exactly when [notSmufl] is absent, [false] or the empty string,
    and false exactly when [notSmufl] is [true] or a non-empty string. *)
Theorem isSmufl_negates_notSmufl className def :
  let d := parseMungClassDefinition className def in
  let notSmufl := MungClassDefinition.notSmufl def in
  isSmufl d = negb (to_boolean notSmufl) ∧
  (isSmufl d = true ↔
     notSmufl = None ∨ notSmufl = Some (JSBool false) ∨
     notSmufl = Some (JSString "")) ∧
  (isSmufl d = false ↔
     notSmufl = Some (JSBool true) ∨
     ∃ s, s ≠ "" ∧ notSmufl = Some (JSString s)).
Proof.
  destruct def as [uc mpp notSmufl eqs container just transcribable]; simpl.
  split; [done|].
  destruct notSmufl as [[[]|[|a s]]|]; cbn.
  all: split; (split; [intros ?|intros H]); try done; eauto.
  all: try (destruct H as [[=]|[s' [Hs [=]]]]; by subst).
  all: try (destruct H as [[=]|[[=]|[=]]]).
  right. by exists (String a s).
Qed.

(** ** The sorted views *)

(** C2. The name list is the list of the [className] fields of the
    descriptor list, in the same order; it is in ascending lexicographic
    order and no name occurs twice. *)
Theorem MUNG_CLASS_NAMES_sorted_distinct :
  MUNG_CLASS_NAMES = className <$> MUNG_CLASSES ∧
  Sorted String.le MUNG_CLASS_NAMES ∧
  NoDup MUNG_CLASS_NAMES.
Proof.
  split; [done|]. rewrite MUNG_CLASS_NAMES_keys.
  destruct (Array_sort_sorted (Object_keys DEFINITIONS)) as [Hperm Hsorted].
  split; [done|].
  rewrite Hperm, Object_keys_Permutation. apply object_literal_NoDup.
Qed.

(** ** Lookup by name *)

(** C3. Looking up a key of the table in the dictionary yields a descriptor
    whose [className] is that key. *)
Theorem by_name_of_key (n : string) :
  n ∈ Object_keys DEFINITIONS →
  ∃ d, Get MUNG_CLASSES_BY_NAME n = Value d ∧ className d = n.
Proof.
  rewrite <-elem_of_MUNG_CLASS_NAMES.
  rewrite MUNG_CLASS_NAMES_eq, MUNG_CLASSES_BY_NAME_eq.
  apply Get_by_name_key.
Qed.

Lemma by_name_of_key_witness :
  "noteheadBlack" ∈ Object_keys DEFINITIONS ∧
  ∃ d, Get MUNG_CLASSES_BY_NAME "noteheadBlack" = Value d
       ∧ className d = "noteheadBlack".
Proof.
  assert ("noteheadBlack" ∈ Object_keys DEFINITIONS) as Hkey by compute_done.
  split; [exact Hkey|]. exact (by_name_of_key "noteheadBlack" Hkey).
Defined.

(** Looking up any other name yields what [Object.prototype] has under
    that name, if anything: the dictionary is an ordinary object. *)
Lemma by_name_of_other (n : string) :
  n ∉ Object_keys DEFINITIONS →
  Get MUNG_CLASSES_BY_NAME n
  = if decide (n ∈ Object_prototype) then Builtin n else Undefined.
Proof.
  rewrite <-elem_of_MUNG_CLASS_NAMES.
  rewrite MUNG_CLASS_NAMES_eq, MUNG_CLASSES_BY_NAME_eq.
  apply Get_by_name_unknown.
Qed.

(** A name that is neither a key of the table nor the name of a property
    of [Object.prototype] is looked up as [undefined]. *)
Lemma by_name_of_unknown (n : string) :
  n ∉ Object_keys DEFINITIONS →
  n ∉ Object_prototype →
  Get MUNG_CLASSES_BY_NAME n = Undefined.
Proof.
  intros Hn Hproto. rewrite (by_name_of_other n Hn). by rewrite decide_False.
Qed.

(** The example of the specification: [doesNotExist] is not found. *)
Example by_name_doesNotExist :
  Get MUNG_CLASSES_BY_NAME "doesNotExist" = Undefined.
Proof. apply by_name_of_unknown; compute_done. Qed.

(** C4. A name that is not a key of the table is not always looked up as
    [undefined]: [constructor] is not a key, and
    [MUNG_CLASSES_BY_NAME["constructor"]] is the property that the
    dictionary, an ordinary object, inherits from [Object.prototype]. *)
Theorem by_name_constructor_defined :
  ("constructor" ∉ Object_keys DEFINITIONS) ∧
  Get MUNG_CLASSES_BY_NAME "constructor" = Builtin "constructor" ∧
  Get MUNG_CLASSES_BY_NAME "constructor" ≠ Undefined.
Proof.
  assert ("constructor" ∉ Object_keys DEFINITIONS) as Hkey by compute_done.
  assert (Get MUNG_CLASSES_BY_NAME "constructor" = Builtin "constructor")
    as Hget by (by rewrite (by_name_of_other _ Hkey)).
  split; [done|]. split; [done|]. by rewrite Hget.
Qed.

(** ** The contents of the table *)

(** C6. The entry [unclassified] has the glyph [?] and [notSmufl: true], and
    neither [container], [transcribable] nor a justification; its descriptor
    has [isSmufl] false and [justifiedSmuflDivergence] false. *)
Theorem unclassified_unjustified :
  ∃ def d,
    own DEFINITIONS "unclassified" = Some def ∧
    MungClassDefinition.uc def = "?" ∧
    MungClassDefinition.notSmufl def = Some (JSBool true) ∧
    MungClassDefinition.container def = None ∧
    MungClassDefinition.transcribable def = None ∧
    MungClassDefinition.otherSmuflDivergenceJustification def = None ∧
    Get MUNG_CLASSES_BY_NAME "unclassified" = Value d ∧
    d ∈ MUNG_CLASSES ∧
    d = parseMungClassDefinition "unclassified" def ∧
    isSmufl d = false ∧
    justifiedSmuflDivergence d = Some false.
Proof.
  set (def := MungClassDefinition.def "?"
                [MungClassDefinition.Mpp true;
                 MungClassDefinition.NotSmufl (JSBool true)]).
  exists def, (parseMungClassDefinition "unclassified" def).
  split_and!;
    [vm_compute; reflexivity|reflexivity..|vm_compute; reflexivity
    |compute_done|reflexivity|reflexivity|reflexivity].
Qed.

(** C9. No entry of the table gives [notSmufl] a string: the property is
    absent or the boolean [true]. *)
Theorem notSmufl_never_string :
  Forall
    (λ entry,
       MungClassDefinition.notSmufl entry.2 = None ∨
       MungClassDefinition.notSmufl entry.2 = Some (JSBool true))
    DEFINITIONS.
Proof. compute_done. Qed.

(** C7. Not every name listed in [smuflEquivalents] is a class of the
    registry: the descriptor of [staff] lists [staff5Lines], which is not a
    key of the table. *)
Theorem staff_equivalent_unknown :
  ∃ d, d ∈ MUNG_CLASSES ∧ className d = "staff" ∧
       "staff5Lines" ∈ equivalents d ∧
       ("staff5Lines" ∉ Object_keys DEFINITIONS) ∧
       ("staff5Lines" ∉ MUNG_CLASS_NAMES).
Proof.
  exists (parseMungClassDefinition "staff"
            (MungClassDefinition.def (u 0xE01A +:+ u 0x2800)
               [MungClassDefinition.Mpp true;
                MungClassDefinition.SmuflEquivalents ["staff5Lines"]])).
  split_and!; [compute_done|reflexivity|compute_done..].
Qed.

(** Every other name listed in [smuflEquivalents] is a key of the table. *)
Lemma equivalents_are_classes :
  Forall
    (λ d, Forall
            (λ e, e ∈ Object_keys DEFINITIONS ∨
                  (className d = "staff" ∧ e = "staff5Lines"))
            (equivalents d))
    MUNG_CLASSES.
Proof. compute_done. Qed.

(** C10. Every transcribable class of the registry is outside SMuFL, and
    its divergence is justified. *)
Theorem transcribable_diverges (d : MungClass) :
  d ∈ MUNG_CLASSES →
  isTranscribable d = true →
  isSmufl d = false ∧ justifiedSmuflDivergence d = Some true.
Proof.
  assert (Forall (λ d, isTranscribable d = true →
                       isSmufl d = false ∧
                       justifiedSmuflDivergence d = Some true) MUNG_CLASSES)
    as Hall by compute_done.
  intros Hd. by apply (proj1 (Forall_forall _ _) Hall).
Qed.

Lemma transcribable_diverges_witness :
  parseMungClassDefinition "lyricsText"
    (MungClassDefinition.def "ly"
       [MungClassDefinition.Mpp true;
        MungClassDefinition.NotSmufl (JSBool true);
        MungClassDefinition.Transcribable true]) ∈ MUNG_CLASSES ∧
  isSmufl
    (parseMungClassDefinition "lyricsText"
       (MungClassDefinition.def "ly"
          [MungClassDefinition.Mpp true;
           MungClassDefinition.NotSmufl (JSBool true);
           MungClassDefinition.Transcribable true])) = false ∧
  justifiedSmuflDivergence
    (parseMungClassDefinition "lyricsText"
       (MungClassDefinition.def "ly"
          [MungClassDefinition.Mpp true;
           MungClassDefinition.NotSmufl (JSBool true);
           MungClassDefinition.Transcribable true])) = Some true.
Proof.
  split; [compute_done|].
  apply transcribable_diverges; [compute_done|reflexivity].
Defined.

(** ** Determinism *)

(** Whatever algorithm [sort] runs, the construction has one result. *)
Theorem registry_run_deterministic
    (defs : object MungClassDefinition) (classes1 classes2 : list MungClass) :
  registry_run defs classes1 →
  registry_run defs classes2 →
  classes1 = classes2.
Proof.
  intros [keys1 classes1' Hkeys1 Hclasses1] [keys2 classes2' Hkeys2 Hclasses2].
  rewrite (sorted_array_unique _ _ _ Hkeys1 Hkeys2) in Hclasses1.
  congruence.
Qed.

Lemma registry_run_deterministic_witness :
  registry_run DEFINITIONS MUNG_CLASSES ∧
  registry_run DEFINITIONS MUNG_CLASSES ∧
  MUNG_CLASSES = MUNG_CLASSES.
Proof.
  assert (registry_run DEFINITIONS MUNG_CLASSES) as Hrun
    by apply mung_classes_run, MUNG_CLASSES_loaded.
  split; [exact Hrun|]. split; [exact Hrun|].
  exact (registry_run_deterministic DEFINITIONS _ _ Hrun Hrun).
Defined.

(** ** Further properties of the construction, for any table *)

Section Registry.
Implicit Types (defs : object MungClassDefinition) (d : MungClass).
Implicit Types (classes : list MungClass) (key n : string).

Lemma mung_classes_names defs classes :
  mung_classes defs = Some classes →
  mung_class_names classes = Array_sort (Object_keys defs).
Proof. intros Hclasses. by apply registry_run_names, mung_classes_run. Qed.

Lemma elem_of_mung_class_names defs classes n :
  mung_classes defs = Some classes →
  n ∈ mung_class_names classes ↔ is_Some (own defs n).
Proof.
  intros ->%mung_classes_names.
  destruct (Array_sort_sorted (Object_keys defs)) as [Hperm _].
  rewrite Hperm. apply elem_of_Object_keys.
Qed.

Lemma by_name_acc_elem classes (acc : object MungClass) n d :
  own (foldl (λ dict mc, put (className mc) mc dict) acc classes) n = Some d →
  d ∈ classes ∨ own acc n = Some d.
Proof.
  revert acc. induction classes as [|mc classes IH]; intros acc; simpl.
  - by right.
  - intros [Hd|Hd]%IH; [left; by right|].
    rewrite own_put in Hd. case_decide; [|by right].
    injection Hd as <-. left. by left.
Qed.

Lemma by_name_elem classes n d :
  own (mung_classes_by_name classes) n = Some d → d ∈ classes.
Proof. by intros [?|[=]]%by_name_acc_elem. Qed.

Lemma Get_Value_own {V} (o : object V) n v :
  Get o n = Value v ↔ own o n = Some v.
Proof.
  unfold Get. destruct (own o n) as [v'|].
  - split; by intros [= ->].
  - split; [by case_decide|done].
Qed.

(** X1. Building the descriptor list never meets a missing definition,
    whatever the table: every key that [Object.keys] returns is looked up
    as an own property, so [parseMungClassDefinition] is never applied to
    [undefined].  The list has one descriptor for each property of the
    table. *)
Theorem loading_never_fails defs :
  ∃ classes, mung_classes defs = Some classes ∧ length classes = length defs.
Proof.
  destruct (mung_classes_total defs) as [classes Hclasses].
  exists classes. split; [done|].
  rewrite <-(length_fmap className classes).
  change (className <$> classes) with (mung_class_names classes).
  rewrite (mung_classes_names _ _ Hclasses).
  destruct (Array_sort_sorted (Object_keys defs)) as [Hperm _].
  by rewrite Hperm, Object_keys_Permutation, length_fmap.
Qed.

Lemma mung_class_names_spec defs classes :
  NoDup defs.*1 →
  mung_classes defs = Some classes →
  mung_class_names classes ≡ₚ defs.*1 ∧
  Sorted String.le (mung_class_names classes) ∧
  NoDup (mung_class_names classes).
Proof.
  intros Hdefs ->%mung_classes_names.
  destruct (Array_sort_sorted (Object_keys defs)) as [Hperm Hsorted].
  split_and!; [|done|].
  - by rewrite Hperm, Object_keys_Permutation.
  - by rewrite Hperm, Object_keys_Permutation.
Qed.

(** X2. For every table with ASCII class names, the class names of the
    descriptor list are the keys of the table in ascending order, each key
    once.  (On ASCII names the order [String.le] of the bytes is the order
    of the code units by which [sort] compares.) *)
Theorem names_are_sorted_keys defs classes :
  NoDup defs.*1 →
  Forall ascii_string defs.*1 →
  mung_classes defs = Some classes →
  mung_class_names classes ≡ₚ defs.*1 ∧
  Sorted String.le (mung_class_names classes) ∧
  NoDup (mung_class_names classes).
Proof. intros Hdefs _. by apply mung_class_names_spec. Qed.

Lemma names_are_sorted_keys_witness :
  NoDup DEFINITIONS.*1 ∧
  Forall ascii_string DEFINITIONS.*1 ∧
  mung_classes DEFINITIONS = Some MUNG_CLASSES ∧
  mung_class_names MUNG_CLASSES ≡ₚ DEFINITIONS.*1 ∧
  Sorted String.le (mung_class_names MUNG_CLASSES) ∧
  NoDup (mung_class_names MUNG_CLASSES).
Proof.
  assert (NoDup DEFINITIONS.*1) as Hdefs by apply object_literal_NoDup.
  assert (Forall ascii_string DEFINITIONS.*1) as Hascii
    by (unfold ascii_string; compute_done).
  split; [exact Hdefs|]. split; [exact Hascii|].
  split; [exact MUNG_CLASSES_loaded|].
  exact (names_are_sorted_keys DEFINITIONS MUNG_CLASSES Hdefs Hascii
           MUNG_CLASSES_loaded).
Defined.

(** X3. The descriptor list holds exactly the descriptors derived from the
    entries of the table, each under the key of its entry: nothing is left
    out and nothing else is in it. *)
Theorem descriptors_are_derived defs classes d :
  mung_classes defs = Some classes →
  d ∈ classes ↔
  ∃ key def, own defs key = Some def ∧ d = parseMungClassDefinition key def.
Proof.
  intros Hclasses. split.
  - intros (def & Hdef & Hd)%(mung_classes_elem _ _ _ Hclasses). eauto.
  - intros (key & def & Hdef & ->).
    assert (key ∈ mung_class_names classes) as Hkey.
    { rewrite (elem_of_mung_class_names _ _ _ Hclasses). by eexists. }
    apply list_elem_of_fmap in Hkey as (d & -> & Hd).
    destruct (mung_classes_elem _ _ _ Hclasses Hd) as (def' & Hdef' & Heq).
    rewrite Hdef in Hdef'. injection Hdef' as <-. by rewrite <-Heq.
Qed.

Lemma descriptors_are_derived_witness :
  mung_classes DEFINITIONS = Some MUNG_CLASSES ∧
  (parseMungClassDefinition "barlineSingle"
     (MungClassDefinition.def (u 0xE030) []) ∈ MUNG_CLASSES ↔
   ∃ key def,
     own DEFINITIONS key = Some def ∧
     parseMungClassDefinition "barlineSingle"
       (MungClassDefinition.def (u 0xE030) [])
     = parseMungClassDefinition key def).
Proof.
  split; [exact MUNG_CLASSES_loaded|].
  exact (descriptors_are_derived DEFINITIONS MUNG_CLASSES _
           MUNG_CLASSES_loaded).
Defined.

Lemma Get_by_name_derived defs classes key def :
  mung_classes defs = Some classes →
  own defs key = Some def →
  Get (mung_classes_by_name classes) key
  = Value (parseMungClassDefinition key def).
Proof.
  intros Hclasses Hdef.
  assert (key ∈ mung_class_names classes) as Hkey.
  { rewrite (elem_of_mung_class_names _ _ _ Hclasses). by eexists. }
  apply by_name_is_Some in Hkey as [d Hd].
  apply Get_Value_own. rewrite Hd. f_equal.
  pose proof (by_name_Some _ _ _ Hd) as Hname.
  apply by_name_elem in Hd.
  destruct (mung_classes_elem _ _ _ Hclasses Hd) as (def' & Hdef' & ->).
  simpl in Hname. subst key. congruence.
Qed.

(** X4. The three steps compose: the dictionary maps every key of the
    table to the descriptor derived from the entry under that key. *)
Theorem by_name_is_derived defs classes key def :
  mung_classes defs = Some classes →
  own defs key = Some def →
  Get (mung_classes_by_name classes) key
  = Value (parseMungClassDefinition key def).
Proof. apply Get_by_name_derived. Qed.

Lemma by_name_is_derived_witness :
  mung_classes DEFINITIONS = Some MUNG_CLASSES ∧
  own DEFINITIONS "measureSeparator"
  = Some (MungClassDefinition.def (u 0xE030)
            [MungClassDefinition.Mpp true;
             MungClassDefinition.NotSmufl (JSBool true);
             MungClassDefinition.Container true]) ∧
  Get (mung_classes_by_name MUNG_CLASSES) "measureSeparator"
  = Value (parseMungClassDefinition "measureSeparator"
             (MungClassDefinition.def (u 0xE030)
                [MungClassDefinition.Mpp true;
                 MungClassDefinition.NotSmufl (JSBool true);
                 MungClassDefinition.Container true])).
Proof.
  assert (own DEFINITIONS "measureSeparator"
          = Some (MungClassDefinition.def (u 0xE030)
                    [MungClassDefinition.Mpp true;
                     MungClassDefinition.NotSmufl (JSBool true);
                     MungClassDefinition.Container true])) as Hdef
    by (vm_compute; reflexivity).
  split; [exact MUNG_CLASSES_loaded|]. split; [exact Hdef|].
  exact (by_name_is_derived DEFINITIONS MUNG_CLASSES _ _
           MUNG_CLASSES_loaded Hdef).
Defined.

(** X5. Round trip: looking up the class name of a descriptor of the list
    gives back that very descriptor. *)
Theorem by_name_of_className defs classes d :
  mung_classes defs = Some classes →
  d ∈ classes →
  Get (mung_classes_by_name classes) (className d) = Value d.
Proof.
  intros Hclasses Hd.
  destruct (mung_classes_elem _ _ _ Hclasses Hd) as (def & Hdef & Heq).
  rewrite (Get_by_name_derived _ _ _ _ Hclasses Hdef). by rewrite <-Heq.
Qed.

Lemma by_name_of_className_witness :
  mung_classes DEFINITIONS = Some MUNG_CLASSES ∧
  parseMungClassDefinition "gClef"
    (MungClassDefinition.def (u 0xE050) [MungClassDefinition.Mpp true])
    ∈ MUNG_CLASSES ∧
  Get (mung_classes_by_name MUNG_CLASSES)
    (className
       (parseMungClassDefinition "gClef"
          (MungClassDefinition.def (u 0xE050)
             [MungClassDefinition.Mpp true])))
  = Value (parseMungClassDefinition "gClef"
             (MungClassDefinition.def (u 0xE050)
                [MungClassDefinition.Mpp true])).
Proof.
  assert (parseMungClassDefinition "gClef"
            (MungClassDefinition.def (u 0xE050)
               [MungClassDefinition.Mpp true]) ∈ MUNG_CLASSES) as Hd
    by compute_done.
  split; [exact MUNG_CLASSES_loaded|]. split; [exact Hd|].
  exact (by_name_of_className DEFINITIONS MUNG_CLASSES _
           MUNG_CLASSES_loaded Hd).
Defined.

(** X6. For every table without a class called [__proto__], a lookup in
    the dictionary yields a descriptor exactly for the keys of the table;
    a name that is not a key yields the property of [Object.prototype] of
    that name if there is one, and [undefined] otherwise. *)
Theorem by_name_Value_iff_key defs classes n :
  own defs "__proto__" = None →
  mung_classes defs = Some classes →
  ((∃ d, Get (mung_classes_by_name classes) n = Value d) ↔
   is_Some (own defs n)) ∧
  (own defs n = None →
   Get (mung_classes_by_name classes) n
   = if decide (n ∈ Object_prototype) then Builtin n else Undefined).
Proof.
  intros _ Hclasses. split.
  - rewrite <-(elem_of_mung_class_names _ _ _ Hclasses), <-by_name_is_Some.
    unfold is_Some. by setoid_rewrite Get_Value_own.
  - intros Hn. apply Get_by_name_unknown.
    rewrite (elem_of_mung_class_names _ _ _ Hclasses), Hn.
    by intros [? [=]].
Qed.

Lemma by_name_Value_iff_key_witness :
  own DEFINITIONS "__proto__" = None ∧
  mung_classes DEFINITIONS = Some MUNG_CLASSES ∧
  ((∃ d, Get (mung_classes_by_name MUNG_CLASSES) "toString" = Value d) ↔
   is_Some (own DEFINITIONS "toString")) ∧
  (own DEFINITIONS "toString" = None →
   Get (mung_classes_by_name MUNG_CLASSES) "toString"
   = if decide ("toString" ∈ Object_prototype)
     then Builtin "toString" else Undefined).
Proof.
  assert (own DEFINITIONS "__proto__" = None) as Hproto
    by (vm_compute; reflexivity).
  split; [exact Hproto|]. split; [exact MUNG_CLASSES_loaded|].
  exact (by_name_Value_iff_key DEFINITIONS MUNG_CLASSES "toString"
           Hproto MUNG_CLASSES_loaded).
Defined.

End Registry.

(** ** The order of the table and the order of the dictionary *)

Section Order.
Implicit Types (defs : object MungClassDefinition) (d : MungClass).
Implicit Types (classes : list MungClass) (key n : string).

Lemma own_Permutation {V} (o1 o2 : object V) k :
  NoDup o1.*1 → o1 ≡ₚ o2 → own o1 k = own o2 k.
Proof.
  intros Hnodup Hperm. revert Hnodup.
  induction Hperm as [|[k0 v0] o1 o2 _ IH|[k1 v1] [k2 v2] o|o1 o2 o3 Hp1 IH1 _ IH2];
    intros Hnodup.
  - done.
  - simpl. case_decide; [done|].
    apply IH. by apply NoDup_cons in Hnodup as [_ ?].
  - simpl. repeat case_decide; try done. subst.
    rewrite !fmap_cons in Hnodup. apply NoDup_cons in Hnodup as [Hnotin _].
    exfalso. apply Hnotin. by left.
  - rewrite IH1 by done. apply IH2. by rewrite <-Hp1.
Qed.

Lemma filter_all {A} (P : A → Prop) `{∀ x, Decision (P x)} (l : list A) :
  Forall P l → filter P l = l.
Proof.
  induction 1 as [|x l Hx _ IH]; [done|].
  by rewrite filter_cons_True, IH.
Qed.

Lemma filter_none {A} (P : A → Prop) `{∀ x, Decision (P x)} (l : list A) :
  Forall (λ x, ¬ P x) l → filter P l = [].
Proof.
  induction 1 as [|x l Hx _ IH]; [done|].
  by rewrite filter_cons_False.
Qed.

(** An object without array indices lists its keys as they were created. *)
Lemma Object_keys_no_index {V} (o : object V) :
  Forall (λ k, ¬ is_array_index k) o.*1 → Object_keys o = o.*1.
Proof.
  intros Hkeys. unfold Object_keys.
  by rewrite (filter_none is_array_index), (filter_all _ _ Hkeys).
Qed.

Lemma by_name_acc_keys classes (acc : object MungClass) :
  NoDup (acc.*1 ++ mung_class_names classes) →
  (foldl (λ dict mc, put (className mc) mc dict) acc classes).*1
  = acc.*1 ++ mung_class_names classes.
Proof.
  unfold mung_class_names.
  revert acc. induction classes as [|mc classes IH]; intros acc Hnodup; simpl.
  - by rewrite app_nil_r.
  - rewrite fmap_cons in Hnodup.
    assert (className mc ∉ acc.*1) as Hfresh.
    { apply NoDup_app in Hnodup as (_ & Hdisjoint & _).
      intros Hin. apply (Hdisjoint _ Hin). by left. }
    rewrite IH; rewrite put_keys, decide_False by done.
    + by rewrite <-app_assoc.
    + by rewrite <-app_assoc.
Qed.

(** X7. The descriptor list does not depend on the order in which the
    table lists its entries: two tables with the same entries in different
    orders yield the same list, hence the same names and dictionary. *)
Theorem table_order_irrelevant defs1 defs2 :
  NoDup defs1.*1 →
  defs1 ≡ₚ defs2 →
  mung_classes defs1 = mung_classes defs2.
Proof.
  intros Hnodup Hperm. unfold mung_classes.
  assert (Array_sort (Object_keys defs1) = Array_sort (Object_keys defs2))
    as ->.
  { apply (sorted_array_unique (Object_keys defs1));
      [apply Array_sort_sorted|].
    destruct (Array_sort_sorted (Object_keys defs2)) as [Hp Hs].
    split; [|done].
    by rewrite Hp, !Object_keys_Permutation, Hperm. }
  apply mapM_ext. intros key. unfold definition_of, Get.
  by rewrite (own_Permutation defs1 defs2).
Qed.

Lemma table_order_irrelevant_witness :
  NoDup [("b", MungClassDefinition.def "B" []);
         ("a", MungClassDefinition.def "A"
                 [MungClassDefinition.NotSmufl (JSBool true)])].*1 ∧
  [("b", MungClassDefinition.def "B" []);
   ("a", MungClassDefinition.def "A"
           [MungClassDefinition.NotSmufl (JSBool true)])]
  ≡ₚ [("a", MungClassDefinition.def "A"
              [MungClassDefinition.NotSmufl (JSBool true)]);
      ("b", MungClassDefinition.def "B" [])] ∧
  mung_classes
    [("b", MungClassDefinition.def "B" []);
     ("a", MungClassDefinition.def "A"
             [MungClassDefinition.NotSmufl (JSBool true)])]
  = mung_classes
      [("a", MungClassDefinition.def "A"
               [MungClassDefinition.NotSmufl (JSBool true)]);
       ("b", MungClassDefinition.def "B" [])].
Proof.
  assert (NoDup [("b", MungClassDefinition.def "B" []);
                 ("a", MungClassDefinition.def "A"
                         [MungClassDefinition.NotSmufl (JSBool true)])].*1)
    as Hnodup by compute_done.
  split; [exact Hnodup|]. split; [apply perm_swap|].
  apply (table_order_irrelevant _ _ Hnodup), perm_swap.
Defined.

(** X8. When no class name is an array index and no class is called
    [__proto__], enumerating the dictionary with [Object.keys] gives the
    class names in the order of [mung_class_names], the order in which
    [sort] has put them. *)
Theorem dictionary_keys_sorted defs classes :
  NoDup defs.*1 →
  Forall (λ k, ¬ is_array_index k) defs.*1 →
  own defs "__proto__" = None →
  mung_classes defs = Some classes →
  Object_keys (mung_classes_by_name classes) = mung_class_names classes.
Proof.
  intros Hnodup Hkeys _ Hclasses.
  destruct (mung_class_names_spec _ _ Hnodup Hclasses) as (Hperm & _ & Hnames).
  assert ((mung_classes_by_name classes).*1 = mung_class_names classes) as Heq
    by by apply (by_name_acc_keys classes []).
  rewrite Object_keys_no_index; [done|].
  by rewrite Heq, Hperm.
Qed.

Lemma dictionary_keys_sorted_witness :
  NoDup DEFINITIONS.*1 ∧
  Forall (λ k, ¬ is_array_index k) DEFINITIONS.*1 ∧
  own DEFINITIONS "__proto__" = None ∧
  mung_classes DEFINITIONS = Some MUNG_CLASSES ∧
  Object_keys (mung_classes_by_name MUNG_CLASSES)
  = mung_class_names MUNG_CLASSES.
Proof.
  assert (NoDup DEFINITIONS.*1) as Hnodup by apply object_literal_NoDup.
  assert (Forall (λ k, ¬ is_array_index k) DEFINITIONS.*1) as Hkeys
    by compute_done.
  assert (own DEFINITIONS "__proto__" = None) as Hproto
    by (vm_compute; reflexivity).
  split; [exact Hnodup|]. split; [exact Hkeys|]. split; [exact Hproto|].
  split; [exact MUNG_CLASSES_loaded|].
  exact (dictionary_keys_sorted DEFINITIONS MUNG_CLASSES Hnodup Hkeys
           Hproto MUNG_CLASSES_loaded).
Defined.

(** The condition of X8 is needed: with the class names [9] and [10] the
    sorted list is [10], [9], and the dictionary enumerates [9], [10]. *)
Example dictionary_keys_numeric :
  ∃ classes,
    mung_classes [("9", MungClassDefinition.def "a" []);
                  ("10", MungClassDefinition.def "b" [])] = Some classes ∧
    mung_class_names classes = ["10"; "9"] ∧
    Object_keys (mung_classes_by_name classes) = ["9"; "10"].
Proof. eexists. split; [reflexivity|]. split; vm_compute; reflexivity. Qed.

(** X11. For tables without a class called [__proto__], the descriptor
    found under a name depends on the entry of that name alone: two such
    tables that agree on a name give the same result for it, whatever
    their other entries. *)
Theorem entries_are_independent defs1 defs2 classes1 classes2 key :
  own defs1 "__proto__" = None →
  own defs2 "__proto__" = None →
  mung_classes defs1 = Some classes1 →
  mung_classes defs2 = Some classes2 →
  own defs1 key = own defs2 key →
  Get (mung_classes_by_name classes1) key
  = Get (mung_classes_by_name classes2) key.
Proof.
  intros _ _ Hclasses1 Hclasses2 Hown.
  destruct (own defs1 key) as [def|] eqn:Hdef.
  - rewrite (Get_by_name_derived _ _ _ _ Hclasses1 Hdef).
    by rewrite (Get_by_name_derived _ _ _ _ Hclasses2 (eq_sym Hown)).
  - rewrite !Get_by_name_unknown; [done| |].
    + rewrite (elem_of_mung_class_names _ _ _ Hclasses2), <-Hown.
      by intros [? [=]].
    + rewrite (elem_of_mung_class_names _ _ _ Hclasses1), Hdef.
      by intros [? [=]].
Qed.

Lemma entries_are_independent_witness :
  own DEFINITIONS "__proto__" = None ∧
  own [("brace", MungClassDefinition.def (u 0xE000)
                   [MungClassDefinition.Mpp true])] "__proto__" = None ∧
  mung_classes DEFINITIONS = Some MUNG_CLASSES ∧
  mung_classes [("brace", MungClassDefinition.def (u 0xE000)
                            [MungClassDefinition.Mpp true])]
  = Some [parseMungClassDefinition "brace"
            (MungClassDefinition.def (u 0xE000)
               [MungClassDefinition.Mpp true])] ∧
  own DEFINITIONS "brace"
  = own [("brace", MungClassDefinition.def (u 0xE000)
                     [MungClassDefinition.Mpp true])] "brace" ∧
  Get (mung_classes_by_name MUNG_CLASSES) "brace"
  = Get (mung_classes_by_name
           [parseMungClassDefinition "brace"
              (MungClassDefinition.def (u 0xE000)
                 [MungClassDefinition.Mpp true])]) "brace".
Proof.
  assert (own DEFINITIONS "__proto__" = None) as Hproto1
    by (vm_compute; reflexivity).
  assert (own [("brace", MungClassDefinition.def (u 0xE000)
                           [MungClassDefinition.Mpp true])] "__proto__"
          = None) as Hproto2 by (vm_compute; reflexivity).
  assert (own DEFINITIONS "brace"
          = own [("brace", MungClassDefinition.def (u 0xE000)
                             [MungClassDefinition.Mpp true])] "brace")
    as Hown by (vm_compute; reflexivity).
  assert (mung_classes [("brace", MungClassDefinition.def (u 0xE000)
                                    [MungClassDefinition.Mpp true])]
          = Some [parseMungClassDefinition "brace"
                    (MungClassDefinition.def (u 0xE000)
                       [MungClassDefinition.Mpp true])])
    as Hsmall by (vm_compute; reflexivity).
  split; [exact Hproto1|]. split; [exact Hproto2|].
  split; [exact MUNG_CLASSES_loaded|]. split; [exact Hsmall|].
  split; [exact Hown|].
  exact (entries_are_independent _ _ _ _ "brace" Hproto1 Hproto2
           MUNG_CLASSES_loaded Hsmall Hown).
Defined.

End Order.

(** ** What the derivation reads in a definition *)

Section Derivation.
Import MungClassDefinition.

Lemma is_true_to_boolean (v : option bool) : is_true v = to_boolean v.
Proof. by destruct v as [[]|]. Qed.

(** X9. The derivation reads the four flags [mpp], [notSmufl],
    [container] and [transcribable] through their truthiness only: two
    definitions with the same glyph, equivalents and justification and
    with flags of the same truthiness (say an absent flag and an explicit
    [false]) have the same descriptor. *)
Theorem descriptor_depends_on_truthiness className (def1 def2 : t) :
  uc def1 = uc def2 →
  to_boolean (mpp def1) = to_boolean (mpp def2) →
  to_boolean (notSmufl def1) = to_boolean (notSmufl def2) →
  smuflEquivalents def1 = smuflEquivalents def2 →
  to_boolean (container def1) = to_boolean (container def2) →
  otherSmuflDivergenceJustification def1
  = otherSmuflDivergenceJustification def2 →
  to_boolean (transcribable def1) = to_boolean (transcribable def2) →
  parseMungClassDefinition className def1
  = parseMungClassDefinition className def2.
Proof.
  destruct def1, def2; simpl.
  intros -> Hmpp HnotSmufl -> Hcontainer -> Htranscribable.
  unfold parseMungClassDefinition, logical_not; simpl.
  rewrite !is_true_to_boolean.
  by rewrite Hmpp, HnotSmufl, Hcontainer, Htranscribable.
Qed.

Lemma descriptor_depends_on_truthiness_witness :
  uc (def "T" [Mpp false; NotSmufl (JSBool false); Container false;
               Transcribable false])
  = uc (def "T" [NotSmufl (JSString "")]) ∧
  to_boolean (mpp (def "T" [Mpp false; NotSmufl (JSBool false);
                            Container false; Transcribable false]))
  = to_boolean (mpp (def "T" [NotSmufl (JSString "")])) ∧
  to_boolean (notSmufl (def "T" [Mpp false; NotSmufl (JSBool false);
                                 Container false; Transcribable false]))
  = to_boolean (notSmufl (def "T" [NotSmufl (JSString "")])) ∧
  smuflEquivalents (def "T" [Mpp false; NotSmufl (JSBool false);
                             Container false; Transcribable false])
  = smuflEquivalents (def "T" [NotSmufl (JSString "")]) ∧
  to_boolean (container (def "T" [Mpp false; NotSmufl (JSBool false);
                                  Container false; Transcribable false]))
  = to_boolean (container (def "T" [NotSmufl (JSString "")])) ∧
  otherSmuflDivergenceJustification
    (def "T" [Mpp false; NotSmufl (JSBool false); Container false;
              Transcribable false])
  = otherSmuflDivergenceJustification (def "T" [NotSmufl (JSString "")]) ∧
  to_boolean (transcribable (def "T" [Mpp false; NotSmufl (JSBool false);
                                      Container false; Transcribable false]))
  = to_boolean (transcribable (def "T" [NotSmufl (JSString "")])) ∧
  parseMungClassDefinition "otherText"
    (def "T" [Mpp false; NotSmufl (JSBool false); Container false;
              Transcribable false])
  = parseMungClassDefinition "otherText" (def "T" [NotSmufl (JSString "")]).
Proof.
  split_and!; [reflexivity..|].
  apply descriptor_depends_on_truthiness; reflexivity.
Defined.

(** X10. Which definitions are flagged: [justifiedSmuflDivergence] is
    [false] exactly when [notSmufl] is truthy, [container] and
    [transcribable] are not, and there is no justification.  So a string
    given as [notSmufl] does not count as the justification, and a
    justification counts even when it is the empty string. *)
Theorem flagged_iff className (def : t) :
  justifiedSmuflDivergence (parseMungClassDefinition className def)
  = Some false ↔
  to_boolean (notSmufl def) = true ∧
  to_boolean (container def) = false ∧
  to_boolean (transcribable def) = false ∧
  otherSmuflDivergenceJustification def = None.
Proof.
  destruct def as [uc mpp notSmufl eqs container just transcribable].
  unfold parseMungClassDefinition, logical_not; simpl.
  rewrite is_true_to_boolean.
  destruct (to_boolean notSmufl), (to_boolean container),
    (to_boolean transcribable), just as [j|]; simpl.
  all: split; [intros [=]|intros (? & ? & ? & ?)]; done.
Qed.

End Derivation.

(** ** The construction in a store: what it reads and what it writes *)

Section StoreFacts.
Implicit Types (h k : Store.heap) (t l r : Store.loc).
Implicit Types (o : object Store.loc) (defs : object MungClassDefinition).

(** The callback of [map] in [Store.MUNG_CLASSES]. *)
Local Abbreviation callback t :=
  (λ key, Store.bind (Store.index t key)
            (λ def, Store.parseMungClassDefinition key def)).

Lemma read_strings_extend h k a v :
  Store.read_strings h a = Some v → Store.read_strings (h ++ k) a = Some v.
Proof.
  destruct a as [a|]; simpl; [|done].
  destruct (h !! a) as [c|] eqn:Hc; [|done].
  by rewrite (lookup_app_l_Some _ _ _ _ Hc).
Qed.

Lemma read_definition_extend h k l d :
  Store.read_definition h l = Some d →
  Store.read_definition (h ++ k) l = Some d.
Proof.
  unfold Store.read_definition.
  destruct (h !! l) as [c|] eqn:Hc; [|done].
  rewrite (lookup_app_l_Some _ _ _ _ Hc). destruct c; try done.
  destruct (Store.read_strings h _) as [v|] eqn:Hv; [|done].
  by rewrite (read_strings_extend _ k _ _ Hv).
Qed.

Lemma read_descriptor_extend h k c d :
  Store.read_descriptor h c = Some d →
  Store.read_descriptor (h ++ k) c = Some d.
Proof.
  unfold Store.read_descriptor.
  destruct (Store.read_strings h _) as [v|] eqn:Hv; [|done].
  by rewrite (read_strings_extend _ k _ _ Hv).
Qed.

Lemma read_class_extend h k l d :
  Store.read_class h l = Some d → Store.read_class (h ++ k) l = Some d.
Proof.
  unfold Store.read_class.
  destruct (h !! l) as [c|] eqn:Hc; [|done].
  rewrite (lookup_app_l_Some _ _ _ _ Hc). destruct c; try done.
  apply read_descriptor_extend.
Qed.

Lemma read_table_extend h k t defs :
  Store.read_table h t = Some defs → Store.read_table (h ++ k) t = Some defs.
Proof.
  unfold Store.read_table.
  destruct (h !! t) as [c|] eqn:Hc; [|done].
  rewrite (lookup_app_l_Some _ _ _ _ Hc). destruct c; try done.
  intros Hdefs%mapM_Some. apply mapM_Some.
  eapply Forall2_impl; [exact Hdefs|]. intros [key l] e.
  unfold Store.read_entry; simpl.
  destruct (Store.read_definition h l) as [d|] eqn:Hd; [|done].
  by rewrite (read_definition_extend _ k _ _ Hd).
Qed.

Lemma read_classes_extend h k r classes :
  Store.read_classes h r = Some classes →
  Store.read_classes (h ++ k) r = Some classes.
Proof.
  unfold Store.read_classes.
  destruct (h !! r) as [c|] eqn:Hc; [|done].
  rewrite (lookup_app_l_Some _ _ _ _ Hc). destruct c; try done.
  intros Hclasses%mapM_Some. apply mapM_Some.
  eapply Forall2_impl; [exact Hclasses|]. intros l' d.
  apply read_class_extend.
Qed.

(** A table in the store and the table it stands for have the same keys,
    and under each key a definition and what it stands for. *)
Lemma read_entries_keys h o defs :
  mapM (Store.read_entry h) o = Some defs → o.*1 = defs.*1.
Proof.
  intros Hdefs%mapM_Some.
  induction Hdefs as [|[key l] e o defs He _ IH]; [done|].
  rewrite !fmap_cons, IH. f_equal. unfold Store.read_entry in He.
  simpl in He. destruct (Store.read_definition h l); by simplify_eq/=.
Qed.

Lemma read_entries_own h o defs key :
  mapM (Store.read_entry h) o = Some defs →
  own defs key = (own o key ≫= Store.read_definition h).
Proof.
  intros Hdefs%mapM_Some.
  induction Hdefs as [|[key' l] e o defs He _ IH]; [done|].
  unfold Store.read_entry in He. simpl in He.
  destruct (Store.read_definition h l) as [d|] eqn:Hd; simplify_eq/=.
  case_decide; [by subst|done].
Qed.

(** A call of the callback on a key of the table reads the table and the
    definition, and adds one cell, the descriptor, to the store. *)
Lemma callback_spec h t o defs key :
  h !! t = Some (Store.Table o) →
  mapM (Store.read_entry h) o = Some defs →
  is_Some (own o key) →
  ∃ c d,
    (∀ k, callback t key (h ++ k)
          = Some (length (h ++ k), (h ++ k) ++ [Store.Descriptor c])) ∧
    Store.read_descriptor h c = Some d ∧
    definition_of defs key = Some d.
Proof.
  intros Ht Hdefs Hkey.
  assert (is_Some (own defs key)) as [def Hdef].
  { apply own_is_Some. rewrite <-(read_entries_keys _ _ _ Hdefs).
    by apply own_is_Some. }
  pose proof (read_entries_own _ _ _ key Hdefs) as Hown.
  destruct Hkey as [l Hl]. rewrite Hdef, Hl in Hown. simpl in Hown.
  symmetry in Hown. unfold Store.read_definition in Hown.
  destruct (h !! l) as [[| | |fields|]|] eqn:Hfields; try done.
  destruct (Store.read_strings h _) as [equivalents|] eqn:Heq; [|done].
  injection Hown as <-.
  eexists _, _. split_and!.
  3: { apply definition_of_Some. eexists. split; [exact Hdef|reflexivity]. }
  - intros k. unfold Store.bind, Store.index.
    rewrite (lookup_app_l_Some _ _ _ _ Ht). unfold Get. rewrite Hl.
    unfold Store.parseMungClassDefinition.
    rewrite (lookup_app_l_Some _ _ _ _ Hfields). reflexivity.
  - unfold Store.read_descriptor. simpl. rewrite Heq. reflexivity.
Qed.

Lemma calls_spec h t keys cells :
  Forall2
    (λ key c, ∀ k, callback t key (h ++ k)
                   = Some (length (h ++ k), (h ++ k) ++ [Store.Descriptor c]))
    keys cells →
  ∀ k, Store.calls (callback t) keys (h ++ k)
       = Some (seq (length (h ++ k)) (length keys),
               (h ++ k) ++ (Store.Descriptor <$> cells)).
Proof.
  induction 1 as [|key c keys cells Hcall _ IH]; intros k.
  - simpl. unfold Store.ret. by rewrite app_nil_r.
  - cbn [Store.calls]. unfold Store.bind at 1. rewrite Hcall.
    unfold Store.bind at 1. rewrite <-(app_assoc h k), IH.
    unfold Store.ret. rewrite fmap_cons. cbn [length seq].
    replace (length (h ++ k ++ [Store.Descriptor c]))
      with (S (length (h ++ k)))
      by (rewrite !length_app; simpl; lia).
    by rewrite <-!app_assoc.
Qed.

Lemma cells_exist h t o defs keys :
  h !! t = Some (Store.Table o) →
  mapM (Store.read_entry h) o = Some defs →
  Forall (λ key, is_Some (own o key)) keys →
  ∃ cells classes,
    Forall2
      (λ key c, ∀ k, callback t key (h ++ k)
                     = Some (length (h ++ k),
                             (h ++ k) ++ [Store.Descriptor c]))
      keys cells ∧
    Forall2 (λ c d, Store.read_descriptor h c = Some d) cells classes ∧
    mapM (definition_of defs) keys = Some classes.
Proof.
  intros Ht Hdefs. induction 1 as [|key keys Hkey _ IH].
  - exists [], []. by split_and!; [constructor..|].
  - destruct IH as (cells & classes & Hcalls & Hread & Hpure).
    destruct (callback_spec _ _ _ _ _ Ht Hdefs Hkey) as (c & d & ? & ? & ?).
    exists (c :: cells), (d :: classes).
    split_and!; [by constructor..|].
    apply mapM_Some. constructor; [done|]. by apply mapM_Some.
Qed.

(** The cells added by the calls stand for the descriptors. *)
Lemma read_new_cells (H pre post : Store.heap) cells classes :
  H = pre ++ (Store.Descriptor <$> cells) ++ post →
  Forall2 (λ c d, Store.read_descriptor H c = Some d) cells classes →
  Forall2 (λ l d, Store.read_class H l = Some d)
    (seq (length pre) (length cells)) classes.
Proof.
  intros HH Hread. revert pre HH.
  induction Hread as [|c d cells classes Hc _ IH]; intros pre HH.
  - constructor.
  - simpl. constructor.
    + unfold Store.read_class.
      assert (H !! length pre = Some (Store.Descriptor c)) as ->; [|done].
      rewrite HH, fmap_cons, <-app_comm_cons.
      by apply list_lookup_middle.
    + replace (S (length pre)) with (length (pre ++ [Store.Descriptor c]))
        by (rewrite length_app; simpl; lia).
      apply IH. by rewrite HH, fmap_cons, <-app_assoc.
Qed.

(** The construction in the store computes what [mung_classes] computes,
    and leaves every cell of the store as it was. *)
Lemma MUNG_CLASSES_refines h t defs :
  Store.read_table h t = Some defs →
  ∃ r k,
    Store.MUNG_CLASSES t h = Some (r, h ++ k) ∧
    Store.read_classes (h ++ k) r = mung_classes defs.
Proof.
  unfold Store.read_table.
  destruct (h !! t) as [[| |o| |]|] eqn:Ht; try done. intros Hdefs.
  assert (Forall (λ key, is_Some (own o key))
            (Array_sort (Object_keys o))) as Hkeys.
  { apply Forall_forall. intros key Hkey.
    destruct (Array_sort_sorted (Object_keys o)) as [Hperm _].
    rewrite Hperm in Hkey. by apply elem_of_Object_keys. }
  destruct (cells_exist _ _ _ _ _ Ht Hdefs Hkeys)
    as (cells & classes & Hcalls & Hread & Hpure).
  set (sorted := Array_sort (Object_keys o)) in *.
  set (k := [Store.StringArray sorted] ++ (Store.Descriptor <$> cells)
            ++ [Store.ClassArray (seq (length (h ++ [Store.StringArray sorted]))
                                    (length sorted))]).
  exists (length (h ++ [Store.StringArray sorted]
                    ++ (Store.Descriptor <$> cells))), k.
  split.
  - unfold Store.MUNG_CLASSES, Store.bind at 1, Store.Object_keys.
    rewrite Ht. unfold Store.alloc at 1.
    unfold Store.bind at 1, Store.sort.
    rewrite (list_lookup_middle h [] _ (length h)) by done.
    replace (length h) with (length h + 0) at 2 by lia.
    rewrite insert_app_r. cbn [insert list_insert].
    unfold Store.map.
    rewrite (list_lookup_middle h [] _ (length h)) by lia.
    unfold Store.bind at 1. fold sorted.
    rewrite (calls_spec _ _ _ _ Hcalls [Store.StringArray sorted]).
    unfold Store.alloc, k. by rewrite <-!app_assoc.
  - unfold Store.read_classes, k.
    rewrite !app_assoc.
    rewrite (list_lookup_middle _ [] _ _) by (by rewrite <-!app_assoc).
    unfold mung_classes, Object_keys.
    rewrite <-(read_entries_keys _ _ _ Hdefs).
    fold (Object_keys o). fold sorted. rewrite Hpure.
    apply mapM_Some.
    rewrite (Forall2_length _ _ _ Hcalls).
    eapply (read_new_cells _ (h ++ [Store.StringArray sorted]));
      [by rewrite <-!app_assoc|].
    eapply Forall2_impl; [exact Hread|]. intros c d Hc.
    rewrite <-!app_assoc. by apply read_descriptor_extend.
Qed.

Lemma mung_classes_elem_iff defs classes d :
  mung_classes defs = Some classes →
  d ∈ classes ↔
  ∃ key def, own defs key = Some def ∧ d = parseMungClassDefinition key def.
Proof.
  intros Hclasses. split.
  - intros Hd. destruct (mung_classes_elem _ _ _ Hclasses Hd) as (def & ? & ?).
    by exists (className d), def.
  - intros (key & def & Hdef & ->).
    assert (key ∈ mung_class_names classes) as Hkey.
    { rewrite (elem_of_mung_class_names _ _ _ Hclasses). by eexists. }
    apply list_elem_of_fmap in Hkey as (d & -> & Hd).
    destruct (mung_classes_elem _ _ _ Hclasses Hd) as (def' & Hdef' & Heq).
    rewrite Hdef in Hdef'. injection Hdef' as <-. by rewrite <-Heq.
Qed.

(** C8. The descriptor list is a function of the contents of the table,
    and its construction is pure.  For every table there is one sequence
    of descriptors, made of the descriptors derived from the entries of
    the table, such that in every store that holds the table, two
    constructions, the second in the store that the first one leaves, both
    end without throwing and return arrays that stand for this sequence:
    the two results are equal element by element.  Each construction only
    adds cells to the store: no cell that was there is modified, the table
    stands for the same definitions afterwards, and the first result is
    not changed by the second construction. *)
Theorem construction_is_pure defs :
  ∃ classes,
    (∀ d, d ∈ classes ↔
          ∃ key def,
            own defs key = Some def ∧
            d = parseMungClassDefinition key def) ∧
    ∀ h t,
      Store.read_table h t = Some defs →
      ∃ r1 k1 r2 k2,
        Store.MUNG_CLASSES t h = Some (r1, h ++ k1) ∧
        Store.MUNG_CLASSES t (h ++ k1) = Some (r2, (h ++ k1) ++ k2) ∧
        Store.read_table (h ++ k1) t = Some defs ∧
        Store.read_table ((h ++ k1) ++ k2) t = Some defs ∧
        Store.read_classes (h ++ k1) r1 = Some classes ∧
        Store.read_classes ((h ++ k1) ++ k2) r1 = Some classes ∧
        Store.read_classes ((h ++ k1) ++ k2) r2 = Some classes.
Proof.
  destruct (mung_classes_total defs) as [classes Hclasses].
  exists classes. split.
  { intros d. by apply mung_classes_elem_iff. }
  intros h t Hdefs.
  destruct (MUNG_CLASSES_refines _ _ _ Hdefs) as (r1 & k1 & Hrun1 & Hread1).
  pose proof (read_table_extend _ k1 _ _ Hdefs) as Hdefs1.
  destruct (MUNG_CLASSES_refines _ _ _ Hdefs1) as (r2 & k2 & Hrun2 & Hread2).
  rewrite Hclasses in Hread1, Hread2.
  exists r1, k1, r2, k2.
  split_and!; try done.
  - by apply read_table_extend.
  - by apply read_classes_extend.
Qed.

Lemma construction_is_pure_witness :
  Store.read_table Store.example 3 = Some Store.example_table ∧
  ∃ classes r1 k1 r2 k2,
    Store.MUNG_CLASSES 3 Store.example = Some (r1, Store.example ++ k1) ∧
    Store.MUNG_CLASSES 3 (Store.example ++ k1)
    = Some (r2, (Store.example ++ k1) ++ k2) ∧
    Store.read_table (Store.example ++ k1) 3 = Some Store.example_table ∧
    Store.read_table ((Store.example ++ k1) ++ k2) 3
    = Some Store.example_table ∧
    Store.read_classes (Store.example ++ k1) r1 = Some classes ∧
    Store.read_classes ((Store.example ++ k1) ++ k2) r1 = Some classes ∧
    Store.read_classes ((Store.example ++ k1) ++ k2) r2 = Some classes.
Proof.
  assert (Store.read_table Store.example 3 = Some Store.example_table)
    as Htable by (vm_compute; reflexivity).
  split; [exact Htable|].
  destruct (construction_is_pure Store.example_table)
    as (classes & _ & Hruns).
  exists classes. exact (Hruns Store.example 3 Htable).
Defined.

End StoreFacts.
